(** * urllib3/connection.py: connection establishment and certificate checks

    A shallow embedding of [HTTPConnection], [HTTPSConnection] (exported as
    [UnverifiedHTTPSConnection]) and [VerifiedHTTPSConnection].

    The three [connect] methods are sequences of calls into the operating
    system, httplib, the ssl module and urllib3's util module, interleaved
    with assignments to attributes of [self].  They are modelled in a small
    monad that threads the connection object, records every external call
    together with its result, and propagates exceptions. *)

From Stdlib Require Import ZArith List String Ascii Bool Lia Sorted DecimalString.
Import ListNotations.
Open Scope string_scope.
Open Scope Z_scope.
Open Scope list_scope.

(** ** Python values held by the dynamically typed attributes *)

Inductive PyVal : Type :=
| PyNone
| PyBool (b : bool)
| PyInt (n : Z)
| PyStr (s : string).

(** Truth value of an object, as tested by [if x:] and by [x or y]. *)
Definition truthy (v : PyVal) : bool :=
  match v with
  | PyNone => false
  | PyBool b => b
  | PyInt n => negb (n =? 0)
  | PyStr s => negb (s =? EmptyString)%string
  end.

(** [x is not False]: identity with the singleton [False]. *)
Definition is_not_False (v : PyVal) : bool :=
  match v with
  | PyBool false => false
  | _ => true
  end.

(** [x or y] *)
Definition py_or (x y : PyVal) : PyVal := if truthy x then x else y.

(** [str(x)], which is what the [%s] conversion prints. *)
Definition py_str (v : PyVal) : string :=
  match v with
  | PyNone => "None"
  | PyBool true => "True"
  | PyBool false => "False"
  | PyInt n => NilZero.string_of_int (Z.to_int n)
  | PyStr s => s
  end.

(** ** Sockets, certificates, constants of the socket and ssl modules *)

Definition socket : Type := Z.
Definition sslsocket : Type := Z.

(** What [self.sock] refers to: the raw socket or the TLS socket around it. *)
Inductive sock_obj : Type :=
| PlainSock (s : socket)
| TLSSock (t : sslsocket).

(** What [SSLSocket.getpeercert] returns. *)
Inductive peercert : Type :=
| NoCert
| BinaryCert (der : string)
| DecodedCert (names : list (string * string)).

(** A socket option, the argument tuple of [setsockopt]. *)
Definition sockopt : Type := (Z * Z * Z)%type.

(** [socket.IPPROTO_TCP] and [socket.TCP_NODELAY] (their values on Linux). *)
Definition IPPROTO_TCP : Z := 6.
Definition TCP_NODELAY : Z := 1.

(** [ssl.CERT_NONE], [ssl.CERT_OPTIONAL], [ssl.CERT_REQUIRED] *)
Inductive CertReqs : Type := CERT_NONE | CERT_OPTIONAL | CERT_REQUIRED.

Definition CertReqs_eqb (a b : CertReqs) : bool :=
  match a, b with
  | CERT_NONE, CERT_NONE | CERT_OPTIONAL, CERT_OPTIONAL
  | CERT_REQUIRED, CERT_REQUIRED => true
  | _, _ => false
  end.

Definition port_by_scheme (scheme : string) : option Z :=
  if (scheme =? "http")%string then Some 80
  else if (scheme =? "https")%string then Some 443
  else None.

(** ** The connection object

    One record for the three classes: the attributes of the subclasses are
    simply not read by the methods of the base class.  [assert_hostname] and
    [assert_fingerprint] are not class attributes; they exist on an instance
    only once [set_cert] has assigned them, hence the outer [option]
    ([None]: the attribute does not exist). *)

Record Conn : Type := mkConn {
  default_port : Z;
  host : string;
  port : Z;
  timeout : PyVal;
  source_address : option (string * Z);
  socket_options : option (list sockopt);
  sock : option sock_obj;
  _tunnel_host : option string;
  _tunnel_port : option Z;
  auto_open : Z;
  key_file : option string;
  cert_file : option string;
  cert_reqs : PyVal;
  ca_certs : option string;
  ssl_version : PyVal;
  assert_hostname : option PyVal;
  assert_fingerprint : option PyVal
}.

Definition set_sock (v : option sock_obj) (c : Conn) : Conn :=
  mkConn (default_port c) (host c) (port c) (timeout c) (source_address c)
    (socket_options c) v (_tunnel_host c) (_tunnel_port c) (auto_open c)
    (key_file c) (cert_file c) (cert_reqs c) (ca_certs c) (ssl_version c)
    (assert_hostname c) (assert_fingerprint c).

Definition set_auto_open (v : Z) (c : Conn) : Conn :=
  mkConn (default_port c) (host c) (port c) (timeout c) (source_address c)
    (socket_options c) (sock c) (_tunnel_host c) (_tunnel_port c) v
    (key_file c) (cert_file c) (cert_reqs c) (ca_certs c) (ssl_version c)
    (assert_hostname c) (assert_fingerprint c).

Definition set_hostport (hp : string * Z) (c : Conn) : Conn :=
  mkConn (default_port c) (fst hp) (snd hp) (timeout c) (source_address c)
    (socket_options c) (sock c) (_tunnel_host c) (_tunnel_port c)
    (auto_open c) (key_file c) (cert_file c) (cert_reqs c) (ca_certs c)
    (ssl_version c) (assert_hostname c) (assert_fingerprint c).

(** httplib's [set_tunnel(host, port)], by which a caller names the host
    to reach through the proxy that [host] and [port] stand for. *)
Definition set_tunnel (th : string) (tp : option Z) (c : Conn) : Conn :=
  mkConn (default_port c) (host c) (port c) (timeout c) (source_address c)
    (socket_options c) (sock c) (Some th) tp (auto_open c)
    (key_file c) (cert_file c) (cert_reqs c) (ca_certs c) (ssl_version c)
    (assert_hostname c) (assert_fingerprint c).

(** ** Exceptions and results *)

Inductive exn : Type :=
| SocketTimeout
| SocketError (msg : string)
| ConnectTimeoutError (pool : Conn) (message : string)
| SSLError (msg : string)
| FingerprintMismatchError (expected : PyVal) (actual : string)
| CertificateError (msg : string)
| AttributeError (name : string)
| ValueError (msg : string).

Inductive outcome (A : Type) : Type :=
| Return (a : A)
| Raise (e : exn).
Arguments Return {A} a.
Arguments Raise {A} e.

Definition returned {A} (r : outcome A) : bool :=
  match r with Return _ => true | Raise _ => false end.

(** ** The environment: everything [connect] calls that lives outside
    connection.py.  Each entry is a function of the call's arguments. *)

Record Env : Type := mkEnv {
  (* socket.create_connection(address, timeout, *extra_args) *)
  create_connection :
    string * Z -> PyVal -> list (string * Z) -> outcome socket;
  (* conn.setsockopt(level, name, value) *)
  setsockopt : socket -> sockopt -> outcome unit;
  (* httplib: _set_hostport's splitting of host, port, default_port *)
  _set_hostport : string -> option Z -> Z -> string * Z;
  (* httplib: the CONNECT exchange of _tunnel over self.sock *)
  tunnel_handshake : option sock_obj -> string -> Z -> outcome unit;
  (* ssl.wrap_socket(sock, keyfile, certfile, cert_reqs=, ca_certs=) *)
  wrap_socket :
    socket -> option string -> option string -> CertReqs -> option string
    -> outcome sslsocket;
  (* util.ssl_wrap_socket(sock, keyfile, certfile, cert_reqs=, ca_certs=,
     server_hostname=, ssl_version=) *)
  ssl_wrap_socket :
    socket -> option string -> option string -> CertReqs -> option string
    -> option string -> Z -> outcome sslsocket;
  (* util.resolve_cert_reqs, util.resolve_ssl_version *)
  resolve_cert_reqs : PyVal -> outcome CertReqs;
  resolve_ssl_version : PyVal -> outcome Z;
  (* SSLSocket.getpeercert(binary_form) *)
  getpeercert : sslsocket -> bool -> peercert;
  (* the digest of a certificate, in the notation fingerprints are
     configured in *)
  fingerprint : peercert -> string;
  (* ssl.match_hostname(cert, hostname) *)
  match_hostname : peercert -> PyVal -> outcome unit
}.

(** ** The record of external calls *)

Inductive event : Type :=
| Ev_create_connection (address : string * Z) (tmo : PyVal)
    (extra_args : list (string * Z)) (r : outcome socket)
| Ev_setsockopt (s : socket) (opt : sockopt) (r : outcome unit)
| Ev_tunnel (s : option sock_obj) (h : string) (p : Z) (r : outcome unit)
| Ev_wrap_socket (s : socket) (keyfile certfile : option string)
    (reqs : CertReqs) (ca : option string) (r : outcome sslsocket)
| Ev_ssl_wrap_socket (s : socket) (keyfile certfile : option string)
    (reqs : CertReqs) (ca : option string) (server_hostname : option string)
    (version : Z) (r : outcome sslsocket)
| Ev_assert_fingerprint (c : peercert) (fp : PyVal) (r : outcome unit)
| Ev_match_hostname (c : peercert) (hostname : PyVal) (r : outcome unit).

(** ** The monad: connection object in, result, connection object and the
    calls made out.  An exception keeps the assignments made before it. *)

Definition M (A : Type) : Type := Conn -> outcome A * Conn * list event.

Definition ret {A} (a : A) : M A := fun self => (Return a, self, []).

Definition bind {A B} (m : M A) (k : A -> M B) : M B :=
  fun self =>
    match m self with
    | (Return a, self1, l1) =>
        match k a self1 with
        | (r, self2, l2) => (r, self2, l1 ++ l2)
        end
    | (Raise e, self1, l1) => (Raise e, self1, l1)
    end.

Definition raise {A} (e : exn) : M A := fun self => (Raise e, self, []).

(** [self.attr] *)
Definition get {A} (attr : Conn -> A) : M A :=
  fun self => (Return (attr self), self, []).

Definition this : M Conn := fun self => (Return self, self, []).

(** [self.attr = v] *)
Definition assign (upd : Conn -> Conn) : M unit :=
  fun self => (Return tt, upd self, []).

(** An external call: its result is the environment's, and it is recorded. *)
Definition call {A} (ev : outcome A -> event) (r : outcome A) : M A :=
  fun self => (r, self, [ev r]).

(** A pure helper that may raise. *)
Definition lift {A} (r : outcome A) : M A := fun self => (r, self, []).

(** [try: m  except E: h], for the exceptions selected by [catches]. *)
Definition try_except {A} (m : M A) (catches : exn -> bool) (h : M A) : M A :=
  fun self =>
    match m self with
    | (Raise e, self1, l1) =>
        if catches e then
          match h self1 with
          | (r, self2, l2) => (r, self2, l1 ++ l2)
          end
        else (Raise e, self1, l1)
    | res => res
    end.

Declare Scope py_scope.
Delimit Scope py_scope with py.
Notation "x <- m ;; k" := (bind m (fun x => k))
  (at level 100, m at next level, right associativity) : py_scope.
Notation "m ;; k" := (bind m (fun _ => k))
  (at level 100, right associativity) : py_scope.
Open Scope py_scope.

(** [for x in l: body x] *)
Fixpoint for_each {A} (l : list A) (body : A -> M unit) : M unit :=
  match l with
  | [] => ret tt
  | x :: l' => body x ;; for_each l' body
  end.

Definition result_of {A} (x : outcome A * Conn * list event) : outcome A :=
  fst (fst x).
Definition self_of {A} (x : outcome A * Conn * list event) : Conn :=
  snd (fst x).
Definition calls_of {A} (x : outcome A * Conn * list event) : list event :=
  snd x.

(** A run [x] that took place after the calls [l]. *)
Definition logged {A} (l : list event) (x : outcome A * Conn * list event)
  : outcome A * Conn * list event :=
  (result_of x, self_of x, l ++ calls_of x).

(** [o] as the Python value it stands for: [None] or a [str]. *)
Definition of_opt_str (o : option string) : PyVal :=
  match o with
  | Some s => PyStr s
  | None => PyNone
  end.

(** Reading an attribute that an instance may lack. *)
Definition attribute (name : string) (proj : Conn -> option PyVal) : M PyVal :=
  self <- this ;;
  match proj self with
  | Some v => ret v
  | None => raise (AttributeError name)
  end.

(** Same type and same value. *)
Definition PyVal_eqb (a b : PyVal) : bool :=
  match a, b with
  | PyNone, PyNone => true
  | PyBool x, PyBool y => Bool.eqb x y
  | PyInt x, PyInt y => x =? y
  | PyStr x, PyStr y => (x =? y)%string
  | _, _ => false
  end.

Definition is_SocketTimeout (e : exn) : bool :=
  match e with
  | SocketTimeout => true
  | _ => false
  end.

(** ** ssl: the keyword defaults of [ssl.wrap_socket] that decide what a
    call with three positional arguments verifies:
    [wrap_socket(sock, keyfile=None, certfile=None, server_side=False,
    cert_reqs=CERT_NONE, ssl_version=PROTOCOL_SSLv23, ca_certs=None, ...)]. *)

Module ssl.

Definition default_cert_reqs : CertReqs := CERT_NONE.
Definition default_ca_certs : option string := None.

End ssl.

(** ** httplib.HTTPConnection, the base class: the one method of it that
    [connect] calls. *)

Module httplib.
Section WithEnv.
Variable env : Env.

(** [_tunnel], as connection.py documents it at its call: "Calls
    self._set_hostport(), so self.host is self._tunnel_host below."  The
    CONNECT exchange itself is the environment's. *)
Definition _tunnel : M unit :=
  self <- this ;;
  match _tunnel_host self with
  | Some th =>
      assign (set_hostport
                (_set_hostport env th (_tunnel_port self) (default_port self))) ;;
      self <- this ;;
      call (Ev_tunnel (sock self) (host self) (port self))
           (tunnel_handshake env (sock self) (host self) (port self))
  | None => raise (AttributeError "rfind")
  end.

End WithEnv.
End httplib.

(** ** urllib3.util *)

Module util.
Section WithEnv.
Variable env : Env.

(** Modelled from the spec: [assert_fingerprint] of urllib3/util.py is not
    among the sources.  Section 4.5: "compute the exact binary fingerprint of
    the peer's certificate and compare byte-for-byte to the expected value;
    mismatch fails with FingerprintMismatchError naming both values." *)
Definition assert_fingerprint (cert : peercert) (expected : PyVal)
  : outcome unit :=
  if PyVal_eqb (PyStr (fingerprint env cert)) expected then Return tt
  else Raise (FingerprintMismatchError expected (fingerprint env cert)).

End WithEnv.
End util.

(** ** class HTTPConnection(_HTTPConnection, object) *)

Module HTTPConnection.
Section WithEnv.
Variable env : Env.

Definition class_default_port : Z :=
  match port_by_scheme "http" with Some p => p | None => 0 end.

(** Disable Nagle's algorithm by default. *)
Definition default_socket_options : list sockopt :=
  [(IPPROTO_TCP, TCP_NODELAY, 1)].

(** [__init__], on Python 2.7 (neither version shim applies), followed by
    the attribute assignments of the httplib constructor it ends with.
    [kw_socket_options] is [None] when the keyword is not passed.
    [dp] is the [default_port] of the class being instantiated. *)
Definition init_with (dp : Z) (h : string) (p : option Z) (tmo : PyVal)
    (src : option (string * Z))
    (kw_socket_options : option (option (list sockopt))) : Conn :=
  let opts :=
    match kw_socket_options with
    | Some v => v
    | None => Some default_socket_options
    end in
  let hp := _set_hostport env h p dp in
  {| default_port := dp; host := fst hp; port := snd hp; timeout := tmo;
     source_address := src; socket_options := opts; sock := None;
     _tunnel_host := None; _tunnel_port := None; auto_open := 1;
     key_file := None; cert_file := None; cert_reqs := PyNone;
     ca_certs := None; ssl_version := PyNone;
     assert_hostname := None; assert_fingerprint := None |}.

Definition __init__ := init_with class_default_port.

(** Disable all socket options if the user passes [socket_options=None]. *)
Definition _set_options_on (conn : socket) : M unit :=
  opts <- get socket_options ;;
  match opts with
  | None => ret tt
  | Some l =>
      for_each l (fun opt =>
        call (Ev_setsockopt conn opt) (setsockopt env conn opt))
  end.

(** Establish a socket connection and set nodelay settings on it. *)
Definition _new_conn : M socket :=
  self <- this ;;
  let extra_args := [] in
  let extra_args :=
    match source_address self with
    | Some a => extra_args ++ [a]
    | None => extra_args
    end in
  conn <- try_except
            (call (Ev_create_connection (host self, port self) (timeout self)
                     extra_args)
                  (create_connection env (host self, port self) (timeout self)
                     extra_args))
            is_SocketTimeout
            (raise (ConnectTimeoutError self
               ("Connection to " ++ host self
                ++ " timed out. (connect timeout="
                ++ py_str (timeout self) ++ ")")%string)) ;;
  _set_options_on conn ;;
  ret conn.

(** [getattr(self, '_tunnel_host', None)] reads [None] where the attribute
    is missing, which [_tunnel_host : option string] does not tell apart
    from the value [None]. *)
Definition _prepare_conn (conn : socket) : M unit :=
  assign (set_sock (Some (PlainSock conn))) ;;
  th <- get _tunnel_host ;;
  if truthy (of_opt_str th) then
    httplib._tunnel env ;;
    assign (set_auto_open 0)
  else ret tt.

Definition connect : M unit :=
  conn <- _new_conn ;;
  _prepare_conn conn.

End WithEnv.
End HTTPConnection.

(** ** class HTTPSConnection(HTTPConnection), which the module exports as
    [UnverifiedHTTPSConnection] *)

Module HTTPSConnection.
Section WithEnv.
Variable env : Env.

Definition class_default_port : Z :=
  match port_by_scheme "https" with Some p => p | None => 0 end.

(** [self.key_file = key_file; self.cert_file = cert_file] *)
Definition set_key_cert (k c : option string) (s : Conn) : Conn :=
  mkConn (default_port s) (host s) (port s) (timeout s) (source_address s)
    (socket_options s) (sock s) (_tunnel_host s) (_tunnel_port s)
    (auto_open s) k c (cert_reqs s) (ca_certs s) (ssl_version s)
    (assert_hostname s) (assert_fingerprint s).

Definition __init__ (h : string) (p : option Z) (k c : option string)
    (tmo : PyVal) (src : option (string * Z))
    (kw_socket_options : option (option (list sockopt))) : Conn :=
  set_key_cert k c
    (HTTPConnection.init_with env class_default_port h p tmo src
       kw_socket_options).

(** The wrap is [ssl.wrap_socket(conn, self.key_file, self.cert_file)]. *)
Definition connect : M unit :=
  conn <- HTTPConnection._new_conn env ;;
  HTTPConnection._prepare_conn env conn ;;
  k <- get key_file ;;
  c <- get cert_file ;;
  s <- call (Ev_wrap_socket conn k c ssl.default_cert_reqs
               ssl.default_ca_certs)
            (wrap_socket env conn k c ssl.default_cert_reqs
               ssl.default_ca_certs) ;;
  assign (set_sock (Some (TLSSock s))).

End WithEnv.
End HTTPSConnection.

(** [UnverifiedHTTPSConnection = HTTPSConnection], at the end of the module;
    the name [HTTPSConnection] is then rebound to the verified class. *)
Module UnverifiedHTTPSConnection := HTTPSConnection.

(** ** class VerifiedHTTPSConnection(HTTPSConnection) *)

Module VerifiedHTTPSConnection.
Section WithEnv.
Variable env : Env.

(** The only place where [assert_hostname] and [assert_fingerprint] are
    assigned. *)
Definition set_cert (k c : option string) (reqs : PyVal) (ca : option string)
    (ah fp : PyVal) (s : Conn) : Conn :=
  mkConn (default_port s) (host s) (port s) (timeout s) (source_address s)
    (socket_options s) (sock s) (_tunnel_host s) (_tunnel_port s)
    (auto_open s) k c reqs ca (ssl_version s) (Some ah) (Some fp).

(** [self.sock.getpeercert(binary_form)] *)
Definition sock_getpeercert (binary_form : bool) : M peercert :=
  s <- get sock ;;
  match s with
  | Some (TLSSock t) => ret (getpeercert env t binary_form)
  | _ => raise (AttributeError "getpeercert")
  end.

(** Add certificate verification.  [hostname] is [None] or a [str], like
    the attribute [_tunnel_host] it may be assigned from. *)
Definition connect : M unit :=
  conn <- HTTPConnection._new_conn env ;;
  reqs <- get cert_reqs ;;
  resolved_cert_reqs <- lift (resolve_cert_reqs env reqs) ;;
  ver <- get ssl_version ;;
  resolved_ssl_version <- lift (resolve_ssl_version env ver) ;;
  h <- get host ;;
  let hostname := Some h in
  th <- get _tunnel_host ;;
  hostname <-
    (if truthy (of_opt_str th) then
       assign (set_sock (Some (PlainSock conn))) ;;
       httplib._tunnel env ;;
       assign (set_auto_open 0) ;;
       get _tunnel_host
     else ret hostname) ;;
  k <- get key_file ;;
  c <- get cert_file ;;
  ca <- get ca_certs ;;
  s <- call (Ev_ssl_wrap_socket conn k c resolved_cert_reqs ca hostname
               resolved_ssl_version)
            (ssl_wrap_socket env conn k c resolved_cert_reqs ca hostname
               resolved_ssl_version) ;;
  assign (set_sock (Some (TLSSock s))) ;;
  if negb (CertReqs_eqb resolved_cert_reqs CERT_NONE) then
    fp <- attribute "assert_fingerprint" assert_fingerprint ;;
    if truthy fp then
      cert <- sock_getpeercert true ;;
      fp <- attribute "assert_fingerprint" assert_fingerprint ;;
      call (Ev_assert_fingerprint cert fp) (util.assert_fingerprint env cert fp)
    else
      ah <- attribute "assert_hostname" assert_hostname ;;
      if is_not_False ah then
        cert <- sock_getpeercert false ;;
        ah <- attribute "assert_hostname" assert_hostname ;;
        call (Ev_match_hostname cert (py_or ah (of_opt_str hostname)))
             (match_hostname env cert (py_or ah (of_opt_str hostname)))
      else ret tt
  else ret tt.

End WithEnv.
End VerifiedHTTPSConnection.

(** ** The three variants behind one entry point *)

Inductive variant : Type := Plain | Unverified | Verified.

Definition connect (env : Env) (v : variant) : M unit :=
  match v with
  | Plain => HTTPConnection.connect env
  | Unverified => UnverifiedHTTPSConnection.connect env
  | Verified => VerifiedHTTPSConnection.connect env
  end.

(** ** A concrete environment, used to run the model

    One proxy, one origin server whose certificate names "example.com", a
    host that never answers, and a socket option the kernel refuses. *)

Module Demo.

Definition demo_create_connection (address : string * Z) (tmo : PyVal)
    (extra : list (string * Z)) : outcome socket :=
  if (fst address =? "slow.example")%string then Raise SocketTimeout
  else if (fst address =? "down.example")%string
       then Raise (SocketError "Connection refused")
  else Return 3.

Definition demo_setsockopt (s : socket) (opt : sockopt) : outcome unit :=
  let '(level, name, value) := opt in
  if name <? 0 then Raise (SocketError "Protocol not available")
  else Return tt.

Definition demo_set_hostport (h : string) (p : option Z) (dp : Z)
  : string * Z :=
  (h, match p with Some n => n | None => dp end).

Definition demo_tunnel (s : option sock_obj) (h : string) (p : Z)
  : outcome unit :=
  if (h =? "blocked.example")%string
  then Raise (SocketError "Tunnel connection failed: 403 Forbidden")
  else Return tt.

Definition demo_resolve_cert_reqs (candidate : PyVal) : outcome CertReqs :=
  match candidate with
  | PyNone => Return CERT_NONE
  | PyInt 0 => Return CERT_NONE
  | PyInt 1 => Return CERT_OPTIONAL
  | PyInt 2 => Return CERT_REQUIRED
  | PyStr s =>
      if (s =? "CERT_REQUIRED")%string then Return CERT_REQUIRED
      else if (s =? "CERT_NONE")%string then Return CERT_NONE
      else Raise (AttributeError s)
  | _ => Raise (ValueError "cert_reqs")
  end.

Definition demo_resolve_ssl_version (candidate : PyVal) : outcome Z :=
  match candidate with
  | PyNone => Return 2
  | PyInt n => Return n
  | _ => Raise (ValueError "ssl_version")
  end.

Definition demo_getpeercert (t : sslsocket) (binary_form : bool) : peercert :=
  if binary_form then BinaryCert "DER"
  else DecodedCert [("commonName", "example.com")].

Definition demo_fingerprint (c : peercert) : string :=
  match c with
  | BinaryCert _ => "AA:BB:CC"
  | _ => EmptyString
  end.

Definition demo_match_hostname (c : peercert) (hostname : PyVal)
  : outcome unit :=
  match c, hostname with
  | DecodedCert names, PyStr h =>
      if existsb (fun kv => (snd kv =? h)%string) names then Return tt
      else Raise (CertificateError "hostname doesn't match")
  | _, _ => Raise (ValueError "empty or no certificate")
  end.

Definition env : Env :=
  {| create_connection := demo_create_connection;
     setsockopt := demo_setsockopt;
     _set_hostport := demo_set_hostport;
     tunnel_handshake := demo_tunnel;
     wrap_socket := fun s _ _ _ _ => Return (s + 100);
     ssl_wrap_socket := fun s _ _ _ _ _ _ => Return (s + 100);
     resolve_cert_reqs := demo_resolve_cert_reqs;
     resolve_ssl_version := demo_resolve_ssl_version;
     getpeercert := demo_getpeercert;
     fingerprint := demo_fingerprint;
     match_hostname := demo_match_hostname |}.

(** A verified connection to example.com:443, certificates required. *)
Definition direct : Conn :=
  VerifiedHTTPSConnection.set_cert None None (PyStr "CERT_REQUIRED")
    (Some "/etc/ssl/certs/ca-certificates.crt") PyNone PyNone
    (HTTPSConnection.__init__ env "example.com" None None None (PyInt 3) None
       None).

(** The same destination reached through a proxy. *)
Definition via_proxy : Conn :=
  VerifiedHTTPSConnection.set_cert None None (PyStr "CERT_REQUIRED")
    (Some "/etc/ssl/certs/ca-certificates.crt") PyNone PyNone
    (set_tunnel "example.com" (Some 443)
       (HTTPSConnection.__init__ env "proxy.example" (Some 3128) None None
          (PyInt 3) None None)).

(** The same, with the certificate pinned by its fingerprint. *)
Definition pinned : Conn :=
  VerifiedHTTPSConnection.set_cert None None (PyStr "CERT_REQUIRED") None
    PyNone (PyStr "AA:BB:CC") via_proxy.

(** The same, with hostname verification switched off. *)
Definition opted_out : Conn :=
  VerifiedHTTPSConnection.set_cert None None (PyStr "CERT_REQUIRED") None
    (PyBool false) PyNone via_proxy.

(** The same, with the hostname to verify overridden. *)
Definition overridden : Conn :=
  VerifiedHTTPSConnection.set_cert None None (PyStr "CERT_REQUIRED") None
    (PyStr "proxy.example") PyNone via_proxy.

(** No verification asked for, but a fingerprint configured. *)
Definition unchecked : Conn :=
  VerifiedHTTPSConnection.set_cert None None PyNone None
    PyNone (PyStr "00:00:00") direct.

(** [conn.cert_reqs = v], assigned from outside the class. *)
Definition with_cert_reqs (v : PyVal) (c : Conn) : Conn :=
  mkConn (default_port c) (host c) (port c) (timeout c) (source_address c)
    (socket_options c) (sock c) (_tunnel_host c) (_tunnel_port c)
    (auto_open c) (key_file c) (cert_file c) v (ca_certs c) (ssl_version c)
    (assert_hostname c) (assert_fingerprint c).

(** A connection on which [set_cert] was never called. *)
Definition bare : Conn :=
  with_cert_reqs (PyStr "CERT_REQUIRED")
    (HTTPSConnection.__init__ env "example.com" None None None (PyInt 3) None
       None).

(** A plain connection through the proxy, and one through a proxy that
    refuses the CONNECT. *)
Definition plain_via_proxy : Conn :=
  set_tunnel "example.com" (Some 80)
    (HTTPConnection.__init__ env "proxy.example" (Some 3128) (PyInt 3) None
       None).

Definition refused_by_proxy : Conn :=
  set_tunnel "blocked.example" (Some 443)
    (HTTPSConnection.__init__ env "proxy.example" (Some 3128) None None
       (PyInt 3) None None).

(** A host that never answers. *)
Definition slow : Conn :=
  HTTPConnection.__init__ env "slow.example" None (PyInt 3) None None.

(** Keep-alive, an option the kernel refuses, and one more. *)
Definition three_options : list sockopt := [(1, 9, 1); (6, -1, 0); (6, 1, 1)].

Definition custom : Conn :=
  HTTPConnection.__init__ env "example.com" None PyNone None
    (Some (Some three_options)).

(** A verified connection to a host that refuses connections. *)
Definition down : Conn :=
  VerifiedHTTPSConnection.set_cert None None (PyStr "CERT_REQUIRED") None
    PyNone PyNone
    (HTTPSConnection.__init__ env "down.example" None None None (PyInt 3) None
       None).

(** The same environment, with TLS handshakes that fail. *)
Definition no_tls : Env :=
  {| create_connection := demo_create_connection;
     setsockopt := demo_setsockopt;
     _set_hostport := demo_set_hostport;
     tunnel_handshake := demo_tunnel;
     wrap_socket := fun _ _ _ _ _ => Raise (SSLError "handshake failure");
     ssl_wrap_socket :=
       fun _ _ _ _ _ _ _ => Raise (SSLError "handshake failure");
     resolve_cert_reqs := demo_resolve_cert_reqs;
     resolve_ssl_version := demo_resolve_ssl_version;
     getpeercert := demo_getpeercert;
     fingerprint := demo_fingerprint;
     match_hostname := demo_match_hostname |}.

(** A connection given a client key and certificate at construction, and
    then configured by a set_cert call that names neither. *)
Definition with_client_key : Conn :=
  HTTPSConnection.__init__ env "example.com" None (Some "client.key")
    (Some "client.crt") (PyInt 3) None None.

Definition reconfigured : Conn :=
  VerifiedHTTPSConnection.set_cert None None (PyStr "CERT_REQUIRED")
    (Some "ca.pem") PyNone PyNone with_client_key.

End Demo.

(** ** Reading a run

    Vocabulary for the statements below: what was dialled, which options
    reached the socket, which calls were certificate checks, and the state
    of the attempt after each call. *)

Section Observations.
Variable env : Env.

(** The [extra_args] that [_new_conn] passes on. *)
Definition extra_args_of (self : Conn) : list (string * Z) :=
  match source_address self with
  | Some a => [a]
  | None => []
  end.

(** The dial of [_new_conn] and the message of its timeout. *)
Definition dial (self : Conn) : outcome socket :=
  create_connection env (host self, port self) (timeout self)
    (extra_args_of self).

Definition dialled (self : Conn) (r : outcome socket) : event :=
  Ev_create_connection (host self, port self) (timeout self)
    (extra_args_of self) r.


Definition timeout_message (self : Conn) : string :=
  ("Connection to " ++ host self ++ " timed out. (connect timeout="
   ++ py_str (timeout self) ++ ")")%string.

Definition setsockopt_event (conn : socket) (opt : sockopt) : event :=
  Ev_setsockopt conn opt (setsockopt env conn opt).

(** The options of [l] that reach the socket: all of them up to and
    including the first one that is refused. *)
Fixpoint applied (conn : socket) (l : list sockopt) : list sockopt :=
  match l with
  | [] => []
  | opt :: l' =>
      opt :: (if returned (setsockopt env conn opt) then applied conn l'
              else [])
  end.

Fixpoint options_result (conn : socket) (l : list sockopt) : outcome unit :=
  match l with
  | [] => Return tt
  | opt :: l' =>
      match setsockopt env conn opt with
      | Return _ => options_result conn l'
      | Raise e => Raise e
      end
  end.

Definition options_of (self : Conn) : list sockopt :=
  match socket_options self with
  | Some l => l
  | None => []
  end.

(** The value of the local [hostname] of the verified [connect]. *)
Definition effective_hostname (self : Conn) : option string :=
  if truthy (of_opt_str (_tunnel_host self)) then _tunnel_host self
  else Some (host self).

(** Host and port that [_tunnel] asks the proxy to connect to, and its
    CONNECT exchange over [sk]. *)
Definition tunnel_hostport (self : Conn) (th : string) : string * Z :=
  _set_hostport env th (_tunnel_port self) (default_port self).

Definition tunnel_event (sk : option sock_obj) (hp : string * Z) : event :=
  Ev_tunnel sk (fst hp) (snd hp) (tunnel_handshake env sk (fst hp) (snd hp)).

(** The calls of a [_new_conn] whose dial returned [conn]. *)
Definition sent (self : Conn) (conn : socket) : list event :=
  dialled self (Return conn)
  :: map (setsockopt_event conn) (applied conn (options_of self)).

Definition failed (e : event) : bool :=
  match e with
  | Ev_create_connection _ _ _ r => negb (returned r)
  | Ev_setsockopt _ _ r => negb (returned r)
  | Ev_tunnel _ _ _ r => negb (returned r)
  | Ev_wrap_socket _ _ _ _ _ r => negb (returned r)
  | Ev_ssl_wrap_socket _ _ _ _ _ _ _ r => negb (returned r)
  | Ev_assert_fingerprint _ _ r => negb (returned r)
  | Ev_match_hostname _ _ r => negb (returned r)
  end.

(** The post-handshake certificate checks among the calls. *)
Definition is_check (e : event) : bool :=
  match e with
  | Ev_assert_fingerprint _ _ _ | Ev_match_hostname _ _ _ => true
  | _ => false
  end.

Definition checks (l : list event) : list event := filter is_check l.

(** The two ways of wrapping: [ssl.wrap_socket] with its three positional
    arguments, and [util.ssl_wrap_socket], the one that is given a
    certificate requirement, a CA bundle and a server hostname. *)
Definition is_plain_wrap (e : event) : bool :=
  match e with
  | Ev_wrap_socket _ _ _ _ _ _ => true
  | _ => false
  end.

Definition is_verifying_wrap (e : event) : bool :=
  match e with
  | Ev_ssl_wrap_socket _ _ _ _ _ _ _ _ => true
  | _ => false
  end.

(** The TLS socket a run obtained from util.ssl_wrap_socket, if the
    handshake completed. *)
Fixpoint tls_socket (l : list event) : option sslsocket :=
  match l with
  | [] => None
  | Ev_ssl_wrap_socket _ _ _ _ _ _ _ (Return t) :: _ => Some t
  | _ :: l' => tls_socket l'
  end.

End Observations.

(** ** The states of an attempt *)

Inductive conn_state : Type :=
| Unconnected | RawConnected | Tunneled | TLSWrapped | Ready | Failed.

Definition rank (s : conn_state) : nat :=
  match s with
  | Unconnected => 0
  | RawConnected => 1
  | Tunneled => 2
  | TLSWrapped => 3
  | Ready => 4
  | Failed => 5
  end%nat.

Definition conn_state_eqb (a b : conn_state) : bool := Nat.eqb (rank a) (rank b).

(** The state a call belongs to: the one it leads into when it is a step of
    the machine (dial, tunnel, TLS wrap), the one it takes place in when it
    is a sub-step (a socket option right after the dial, a certificate check
    right after the wrap). *)
Definition stage (e : event) : conn_state :=
  match e with
  | Ev_create_connection _ _ _ _ => RawConnected
  | Ev_setsockopt _ _ _ => RawConnected
  | Ev_tunnel _ _ _ _ => Tunneled
  | Ev_wrap_socket _ _ _ _ _ _ => TLSWrapped
  | Ev_ssl_wrap_socket _ _ _ _ _ _ _ _ => TLSWrapped
  | Ev_assert_fingerprint _ _ _ => TLSWrapped
  | Ev_match_hostname _ _ _ => TLSWrapped
  end.

Definition substep (e : event) : bool :=
  match e with
  | Ev_setsockopt _ _ _ | Ev_assert_fingerprint _ _ _
  | Ev_match_hostname _ _ _ => true
  | _ => false
  end.

(** The states visited from [cur] on: a failed call moves to [Failed], a
    sub-step of the current state stays in it, any other call moves to its
    stage; at the end a normal return moves to [Ready], an exception to
    [Failed] (unless a failed call already did). *)
Fixpoint trajectory (cur : conn_state) (l : list event) (ok : bool)
  : list conn_state :=
  match l with
  | [] =>
      if ok then [Ready]
      else if conn_state_eqb cur Failed then [] else [Failed]
  | e :: l' =>
      if failed e then Failed :: trajectory Failed l' ok
      else if substep e && conn_state_eqb (stage e) cur
           then trajectory cur l' ok
      else stage e :: trajectory (stage e) l' ok
  end.

(** The states of a whole run, from [Unconnected]. *)
Definition states {A} (x : outcome A * Conn * list event) : list conn_state :=
  Unconnected :: trajectory Unconnected (calls_of x) (returned (result_of x)).

Definition forward (a b : conn_state) : Prop := (rank a < rank b)%nat.

(** ** More vocabulary: kinds of calls, and the attributes that make up the
    configuration of a connection *)

Definition is_dial (e : event) : bool :=
  match e with
  | Ev_create_connection _ _ _ _ => true
  | _ => false
  end.

Definition is_tunnel (e : event) : bool :=
  match e with
  | Ev_tunnel _ _ _ _ => true
  | _ => false
  end.

Definition tunnel_succeeded (e : event) : bool :=
  match e with
  | Ev_tunnel _ _ _ (Return _) => true
  | _ => false
  end.


(** Everything of a connection but [sock], [auto_open], [host] and [port]. *)
Definition config_of (c : Conn) :=
  (default_port c, timeout c, source_address c, socket_options c,
   _tunnel_host c, _tunnel_port c, key_file c, cert_file c, cert_reqs c,
   ca_certs c, ssl_version c, assert_hostname c, assert_fingerprint c).

(** The successful tunnel handshake of a connection that has a tunnel host,
    over the raw socket [conn]; nothing for one that has none. *)
Definition tunnel_calls (env : Env) (self : Conn) (conn : socket)
  : list event :=
  match _tunnel_host self with
  | Some th =>
      if truthy (PyStr th) then
        let hp := tunnel_hostport env self th in
        [Ev_tunnel (Some (PlainSock conn)) (fst hp) (snd hp) (Return tt)]
      else []
  | None => []
  end.

(** * Properties *)

Section Facts.
Variable env : Env.

Lemma for_each_setsockopt (conn : socket) (l : list sockopt) (self : Conn) :
  for_each l (fun opt => call (Ev_setsockopt conn opt) (setsockopt env conn opt))
    self
  = (options_result env conn l, self,
     map (setsockopt_event env conn) (applied env conn l)).
Proof.
  induction l as [|opt l IH]; [reflexivity|].
  cbn [for_each applied options_result map].
  unfold bind, call at 1, setsockopt_event at 1.
  destruct (setsockopt env conn opt) as [[]|e]; cbn [returned].
  - rewrite IH. reflexivity.
  - reflexivity.
Qed.

Lemma set_options_on_run (conn : socket) (self : Conn) :
  HTTPConnection._set_options_on env conn self
  = (options_result env conn (options_of self), self,
     map (setsockopt_event env conn) (applied env conn (options_of self))).
Proof.
  unfold HTTPConnection._set_options_on, bind, get, options_of.
  destruct (socket_options self) as [l|].
  - rewrite for_each_setsockopt. reflexivity.
  - reflexivity.
Qed.

Lemma new_conn_run (self : Conn) :
  HTTPConnection._new_conn env self
  = match dial env self with
    | Return conn =>
        (match options_result env conn (options_of self) with
         | Return _ => Return conn
         | Raise e => Raise e
         end, self, sent env self conn)
    | Raise e =>
        (Raise (if is_SocketTimeout e
                then ConnectTimeoutError self (timeout_message self) else e),
         self, [dialled self (Raise e)])
    end.
Proof.
  unfold HTTPConnection._new_conn, bind, this, try_except, call, raise, ret.
  unfold sent, dialled, dial, extra_args_of, timeout_message.
  set (extra := match source_address self with
                | Some a => [] ++ [a]
                | None => []
                end).
  replace (match source_address self with
           | Some a => [a]
           | None => []
           end) with extra by (subst extra; destruct (source_address self); reflexivity).
  destruct (create_connection env (host self, port self) (timeout self) extra)
    as [conn|e].
  - rewrite set_options_on_run.
    destruct (options_result env conn (options_of self)) as [[]|e'];
      cbn [app]; rewrite ?app_nil_r; reflexivity.
  - destruct (is_SocketTimeout e); reflexivity.
Qed.

(** *** One step of a run at a time *)

Section Steps.
Context {A B : Type} (k : A -> M B) (self : Conn).

Lemma bind_ret (a : A) : bind (ret a) k self = k a self.
Proof. unfold bind, ret. destruct (k a self) as [[r s] l]. reflexivity. Qed.

Lemma bind_get (f : Conn -> A) : bind (get f) k self = k (f self) self.
Proof. apply bind_ret. Qed.

Lemma bind_raise (e : exn) : bind (raise e) k self = (Raise e, self, []).
Proof. reflexivity. Qed.

Lemma bind_lift (r : outcome A) :
  bind (lift r) k self
  = match r with
    | Return a => k a self
    | Raise e => (Raise e, self, [])
    end.
Proof. destruct r as [a|e]; [apply bind_ret | reflexivity]. Qed.

Lemma bind_call (ev : outcome A -> event) (r : outcome A) :
  bind (call ev r) k self
  = match r with
    | Return a => logged [ev (Return a)] (k a self)
    | Raise e => (Raise e, self, [ev (Raise e)])
    end.
Proof.
  unfold bind, call, logged. destruct r as [a|e]; [|reflexivity].
  destruct (k a self) as [[r s] l]. reflexivity.
Qed.

Lemma bind_if (b : bool) (m1 m2 : M A) :
  bind (if b then m1 else m2) k self
  = if b then bind m1 k self else bind m2 k self.
Proof. destruct b; reflexivity. Qed.

Lemma bind_assoc {C : Type} (m : M C) (f : C -> M A) :
  bind (bind m f) k self = bind m (fun x => bind (f x) k) self.
Proof.
  unfold bind. destruct (m self) as [[[c|e] s1] l1]; [|reflexivity].
  destruct (f c s1) as [[[a|e] s2] l2]; [|reflexivity].
  destruct (k a s2) as [[r s3] l3]. rewrite app_assoc. reflexivity.
Qed.

End Steps.

Lemma call_run {A : Type} (ev : outcome A -> event) (r : outcome A)
    (self : Conn) :
  call ev r self
  = match r with
    | Return a => (Return a, self, [ev (Return a)])
    | Raise e => (Raise e, self, [ev (Raise e)])
    end.
Proof. destruct r; reflexivity. Qed.

Lemma ret_run {A : Type} (a : A) (self : Conn) :
  ret a self = (Return a, self, []).
Proof. reflexivity. Qed.

Lemma assign_run (upd : Conn -> Conn) (self : Conn) :
  assign upd self = (Return tt, upd self, []).
Proof. reflexivity. Qed.

Lemma bind_this {B : Type} (k : Conn -> M B) (self : Conn) :
  bind this k self = k self self.
Proof. apply (bind_ret k self self). Qed.

Lemma bind_assign {B : Type} (upd : Conn -> Conn) (k : unit -> M B)
    (self : Conn) :
  bind (assign upd) k self = k tt (upd self).
Proof.
  unfold bind, assign. destruct (k tt (upd self)) as [[r s] l]. reflexivity.
Qed.

Lemma bind_attribute {B : Type} (name : string) (proj : Conn -> option PyVal)
    (k : PyVal -> M B) (self : Conn) :
  bind (attribute name proj) k self
  = match proj self with
    | Some v => k v self
    | None => (Raise (AttributeError name), self, [])
    end.
Proof.
  unfold attribute. rewrite bind_assoc, bind_this.
  destruct (proj self); [apply bind_ret | reflexivity].
Qed.

Lemma bind_getpeercert {B : Type} (binary_form : bool) (k : peercert -> M B)
    (self : Conn) :
  bind (VerifiedHTTPSConnection.sock_getpeercert env binary_form) k self
  = match sock self with
    | Some (TLSSock t) => k (getpeercert env t binary_form) self
    | _ => (Raise (AttributeError "getpeercert"), self, [])
    end.
Proof.
  unfold VerifiedHTTPSConnection.sock_getpeercert.
  rewrite bind_assoc, bind_get.
  destruct (sock self) as [[s|t]|]; try reflexivity. apply bind_ret.
Qed.

Lemma bind_tunnel {B : Type} (k : unit -> M B) (self : Conn) :
  bind (httplib._tunnel env) k self
  = match _tunnel_host self with
    | Some th =>
        let hp := tunnel_hostport env self th in
        match tunnel_handshake env (sock self) (fst hp) (snd hp) with
        | Return _ =>
            logged [Ev_tunnel (sock self) (fst hp) (snd hp) (Return tt)]
              (k tt (set_hostport hp self))
        | Raise e =>
            (Raise e, set_hostport hp self,
             [Ev_tunnel (sock self) (fst hp) (snd hp) (Raise e)])
        end
    | None => (Raise (AttributeError "rfind"), self, [])
    end.
Proof.
  unfold httplib._tunnel. rewrite bind_assoc, bind_this.
  destruct (_tunnel_host self) as [th|]; [|reflexivity].
  rewrite bind_assoc, bind_assign, bind_assoc, bind_this, bind_call.
  cbn [sock host port set_hostport]. unfold tunnel_hostport.
  cbv zeta.
  destruct (tunnel_handshake env (sock self) _ _) as [[]|e]; reflexivity.
Qed.

Lemma bind_new_conn {B : Type} (k : socket -> M B) (self : Conn) :
  bind (HTTPConnection._new_conn env) k self
  = match dial env self with
    | Return conn =>
        match options_result env conn (options_of self) with
        | Return _ => logged (sent env self conn) (k conn self)
        | Raise e => (Raise e, self, sent env self conn)
        end
    | Raise e =>
        (Raise (if is_SocketTimeout e
                then ConnectTimeoutError self (timeout_message self) else e),
         self, [dialled self (Raise e)])
    end.
Proof.
  unfold bind at 1. rewrite new_conn_run.
  destruct (dial env self) as [conn|e]; [|reflexivity].
  destruct (options_result env conn (options_of self)) as [[]|e];
    [|reflexivity].
  destruct (k conn self) as [[r s] l]. reflexivity.
Qed.

(** *** The calls of [_new_conn] under each observation *)

Lemma filter_options (f : event -> bool) (conn : socket) (l : list sockopt) :
  (forall opt r, f (Ev_setsockopt conn opt r) = false) ->
  filter f (map (setsockopt_event env conn) l) = [].
Proof.
  intros Hf. induction l as [|opt l IH]; [reflexivity|].
  cbn [map filter]. unfold setsockopt_event at 1. rewrite Hf. exact IH.
Qed.

Lemma filter_sent (f : event -> bool) (self : Conn) (conn : socket)
    (rest : list event) :
  (forall opt r, f (Ev_setsockopt conn opt r) = false) ->
  (forall r, f (dialled self r) = false) ->
  filter f (sent env self conn ++ rest) = filter f rest.
Proof.
  intros Hopt Hdial. unfold sent. cbn [app filter]. rewrite Hdial.
  rewrite filter_app, filter_options by exact Hopt. reflexivity.
Qed.

Lemma filter_sent0 (f : event -> bool) (self : Conn) (conn : socket) :
  (forall opt r, f (Ev_setsockopt conn opt r) = false) ->
  (forall r, f (dialled self r) = false) ->
  filter f (sent env self conn) = [].
Proof.
  intros Hopt Hdial. rewrite <- (app_nil_r (sent env self conn)).
  rewrite filter_sent by assumption. reflexivity.
Qed.

Lemma tls_socket_options (conn : socket) (l : list sockopt) (rest : list event) :
  tls_socket (map (setsockopt_event env conn) l ++ rest) = tls_socket rest.
Proof. induction l; [reflexivity | assumption]. Qed.

Lemma tls_socket_sent (self : Conn) (conn : socket) (rest : list event) :
  tls_socket (sent env self conn ++ rest) = tls_socket rest.
Proof. unfold sent. cbn [app tls_socket dialled]. apply tls_socket_options. Qed.

Lemma tls_socket_sent0 (self : Conn) (conn : socket) :
  tls_socket (sent env self conn) = None.
Proof. rewrite <- (app_nil_r (sent env self conn)). apply tls_socket_sent. Qed.

Lemma in_sent (e : event) (self : Conn) (conn : socket) :
  In e (sent env self conn) ->
  e = dialled self (Return conn) \/ exists opt r, e = Ev_setsockopt conn opt r.
Proof.
  unfold sent. intros [H|H]; [left; symmetry; exact H|right].
  apply in_map_iff in H. destruct H as [opt [H _]].
  exists opt, (setsockopt env conn opt). symmetry. exact H.
Qed.

Ltac head_match :=
  match goal with
  | H : ?x = _ |- context [match ?x with _ => _ end] => rewrite H
  | |- context [match ?x with _ => _ end] =>
      lazymatch x with
      | context [match _ with _ => _ end] => fail
      | context [@result_of] => fail
      | context [@calls_of] => fail
      | context [@self_of] => fail
      | _ => destruct x eqn:?
      end
  end.

Ltac step :=
  first
    [ rewrite bind_assoc | rewrite bind_ret | rewrite bind_get
    | rewrite bind_this | rewrite bind_assign | rewrite bind_raise
    | rewrite bind_lift | rewrite bind_call | rewrite bind_if
    | rewrite bind_attribute | rewrite bind_getpeercert
    | rewrite bind_tunnel | rewrite bind_new_conn
    | progress cbv beta zeta
    | progress unfold tunnel_hostport
    | progress cbn [default_port host port timeout source_address
                    socket_options sock _tunnel_host _tunnel_port auto_open
                    key_file cert_file cert_reqs ca_certs ssl_version
                    assert_hostname assert_fingerprint
                    set_sock set_auto_open set_hostport fst snd]
    | head_match
    | rewrite call_run | rewrite ret_run | rewrite assign_run ].

(** Symbolic execution of the run [x] that the goal is about: one goal per
    path through it.  The rest of the goal is set aside meanwhile. *)
Ltac paths x :=
  pattern x;
  lazymatch goal with
  | |- ?Q _ =>
      let P := fresh "P" in
      set (P := Q);
      unfold connect, HTTPConnection.connect, HTTPSConnection.connect,
        VerifiedHTTPSConnection.connect, HTTPConnection._prepare_conn;
      repeat step;
      subst P; cbv beta
  end.

(** Reading the observations off a finished path. *)
Ltac observe :=
  unfold logged;
  cbn [calls_of result_of self_of fst snd returned] in *;
  unfold checks in *;
  rewrite ?tls_socket_sent, ?tls_socket_sent0 in *;
  rewrite ?filter_sent, ?filter_sent0 in * by reflexivity;
  cbn [app filter is_check is_plain_wrap is_verifying_wrap tls_socket
       default_port host port timeout source_address
       socket_options sock _tunnel_host _tunnel_port auto_open
       key_file cert_file cert_reqs ca_certs ssl_version
       assert_hostname assert_fingerprint
       set_sock set_auto_open set_hostport negb CertReqs_eqb] in *.

(** Bringing the facts gathered along a path to bear on what is left. *)
Ltac settle :=
  repeat match goal with
  | u : unit |- _ => destruct u
  end;
  unfold effective_hostname;
  repeat match goal with
  | H : _tunnel_host ?c = _, H' : context [_tunnel_host ?c] |- _ =>
      progress rewrite H in H'
  end;
  repeat match goal with
  | H : ?a = _ |- context [?a] => rewrite H
  end.

(** C6. In a verified connect whose resolved certificate requirement is
    CERT_NONE, neither assert_fingerprint nor match_hostname is called:
    the record of calls contains no certificate check. *)
Theorem cert_none_invokes_no_check (self : Conn) :
  resolve_cert_reqs env (cert_reqs self) = Return CERT_NONE ->
  checks (calls_of (VerifiedHTTPSConnection.connect env self)) = [].
Proof.
  intros Hnone.
  paths (VerifiedHTTPSConnection.connect env self);
    observe; try reflexivity; discriminate.
Qed.

(** C5. The connect of the unverified variant, for every configuration:
    no fingerprint check and no hostname check is called; util's
    ssl_wrap_socket, the wrap that connect hands a certificate requirement,
    is never called; and a connect that returns has wrapped the raw socket
    exactly once, through ssl.wrap_socket(conn, key_file, cert_file), that
    is with the certificate requirement CERT_NONE and without CA bundle. *)
Theorem unverified_connect_checks_nothing (self : Conn) :
  let x := UnverifiedHTTPSConnection.connect env self in
  checks (calls_of x) = []
  /\ filter is_verifying_wrap (calls_of x) = []
  /\ (returned (result_of x) = true ->
      exists conn t,
        dial env self = Return conn
        /\ filter is_plain_wrap (calls_of x)
           = [Ev_wrap_socket conn (key_file self) (cert_file self)
                CERT_NONE None (Return t)]
        /\ sock (self_of x) = Some (TLSSock t)).
Proof.
  cbv zeta.
  paths (UnverifiedHTTPSConnection.connect env self);
    observe; (split; [reflexivity | split; [reflexivity|]]);
    intros Hret; try discriminate Hret; eauto.
Qed.

(** C3. When the dial of [_new_conn] times out, [_new_conn], and with it the
    connect of each of the three variants, raises ConnectTimeoutError: it
    carries the connection (its host and its configured timeout) and a
    message that spells out both, and it is not the socket module's
    own timeout exception. *)
Theorem dial_timeout_raises_ConnectTimeoutError (v : variant) (self : Conn) :
  dial env self = Raise SocketTimeout ->
  let err :=
    ConnectTimeoutError self
      ("Connection to " ++ host self ++ " timed out. (connect timeout="
       ++ py_str (timeout self) ++ ")")%string in
  result_of (HTTPConnection._new_conn env self) = Raise err
  /\ result_of (connect env v self) = Raise err
  /\ is_SocketTimeout err = false.
Proof.
  intros Hdial err. split; [|split; [|reflexivity]].
  - rewrite new_conn_run, Hdial. reflexivity.
  - destruct v; unfold connect, HTTPConnection.connect,
      UnverifiedHTTPSConnection.connect, VerifiedHTTPSConnection.connect;
      rewrite bind_new_conn, Hdial; reflexivity.
Qed.

Lemma applied_firstn (conn : socket) (l : list sockopt) :
  exists n, applied env conn l = firstn n l.
Proof.
  induction l as [|opt l [n IH]]; [exists 0%nat; reflexivity|].
  cbn [applied]. destruct (returned (setsockopt env conn opt)).
  - exists (S n). cbn [firstn]. rewrite IH. reflexivity.
  - exists 1%nat. reflexivity.
Qed.

Lemma applied_all (conn : socket) (l : list sockopt) :
  returned (options_result env conn l) = true -> applied env conn l = l.
Proof.
  induction l as [|opt l IH]; [reflexivity|].
  cbn [applied options_result].
  destruct (setsockopt env conn opt) as [[]|e]; cbn [returned].
  - intros H. rewrite (IH H). reflexivity.
  - discriminate.
Qed.

Lemma options_result_all (conn : socket) (l : list sockopt) :
  Forall (fun opt => returned (setsockopt env conn opt) = true) l ->
  options_result env conn l = Return tt.
Proof.
  induction 1 as [|opt l Hopt _ IH]; [reflexivity|].
  cbn [options_result].
  destruct (setsockopt env conn opt) as [[]|e]; [exact IH | discriminate Hopt].
Qed.

(** C4. Socket options.  (1) With socket_options None, _set_options_on calls
    nothing.  (2) A constructor call without the socket_options keyword
    stores the default list, which is the single option
    (IPPROTO_TCP, TCP_NODELAY, 1), and that one option is what reaches the
    socket; an explicit None is stored as None.  (3) A list is applied by one
    setsockopt call per triple, in list order: the calls are those of a
    prefix of the list, and of the whole list when _set_options_on returns,
    which it does when no call is refused. *)
Theorem socket_options_applied (conn : socket) :
  (forall self,
      socket_options self = None ->
      HTTPConnection._set_options_on env conn self = (Return tt, self, []))
  /\ (forall h p tmo src,
        let unset := HTTPConnection.__init__ env h p tmo src None in
        socket_options unset = Some [(IPPROTO_TCP, TCP_NODELAY, 1)]
        /\ calls_of (HTTPConnection._set_options_on env conn unset)
           = [Ev_setsockopt conn (IPPROTO_TCP, TCP_NODELAY, 1)
                (setsockopt env conn (IPPROTO_TCP, TCP_NODELAY, 1))]
        /\ socket_options (HTTPConnection.__init__ env h p tmo src (Some None))
           = None)
  /\ (forall self l,
        socket_options self = Some l ->
        let x := HTTPConnection._set_options_on env conn self in
        (exists n,
            calls_of x = map (setsockopt_event env conn) (firstn n l))
        /\ (returned (result_of x) = true ->
            calls_of x = map (setsockopt_event env conn) l)
        /\ (Forall (fun opt => returned (setsockopt env conn opt) = true) l ->
            result_of x = Return tt)).
Proof.
  split; [|split].
  - intros self Hnone. rewrite set_options_on_run.
    unfold options_of. rewrite Hnone. reflexivity.
  - intros h p tmo src unset. split; [reflexivity|]. split; [|reflexivity].
    rewrite set_options_on_run. subst unset.
    cbn -[IPPROTO_TCP TCP_NODELAY setsockopt].
    destruct (returned (setsockopt env conn _)); reflexivity.
  - intros self l Hl x. subst x. rewrite set_options_on_run.
    unfold options_of. rewrite Hl. cbn [calls_of result_of fst snd].
    split; [|split].
    + destruct (applied_firstn conn l) as [n Hn]. exists n.
      rewrite Hn. reflexivity.
    + intros Hret. rewrite (applied_all conn l Hret). reflexivity.
    + apply options_result_all.
Qed.

Lemma truthy_nonempty (s : string) :
  s <> EmptyString -> truthy (PyStr s) = true.
Proof.
  intros Hs. cbn [truthy]. destruct (String.eqb_spec s EmptyString); [contradiction|].
  reflexivity.
Qed.

(** No connect assigns auto_open anything but 0. *)
Lemma auto_open_stays_0 (v : variant) (self : Conn) :
  auto_open self = 0 -> auto_open (self_of (connect env v self)) = 0.
Proof.
  intros H0.
  destruct v;
    [ paths (connect env Plain self) | paths (connect env Unverified self)
    | paths (connect env Verified self) ];
    unfold logged; cbn [self_of fst snd auto_open set_sock set_auto_open
                        set_hostport];
    reflexivity || exact H0.
Qed.

(** C8. In the plain and in the unverified variant, with a tunnel host
    configured and the raw connection made, the call that follows the calls
    of _new_conn is the tunnel handshake over the raw socket; when it
    succeeds, auto_open is 0 in the connection connect leaves behind,
    whatever happens after, and stays 0 through any later connect; when it
    fails, nothing further is called and connect raises. *)
Theorem prepare_conn_tunnels (v : variant) (self : Conn) (th : string)
    (conn : socket) :
  v = Plain \/ v = Unverified ->
  _tunnel_host self = Some th -> th <> EmptyString ->
  result_of (HTTPConnection._new_conn env self) = Return conn ->
  let x := connect env v self in
  let tun :=
    tunnel_event env (Some (PlainSock conn)) (tunnel_hostport env self th) in
  exists rest,
    calls_of x = calls_of (HTTPConnection._new_conn env self) ++ tun :: rest
    /\ (failed tun = false ->
        auto_open (self_of x) = 0
        /\ forall v', auto_open (self_of (connect env v' (self_of x))) = 0)
    /\ (failed tun = true -> rest = [] /\ returned (result_of x) = false).
Proof.
  intros Hv Hth Hne Hnew x tun.
  enough (H : exists rest,
             calls_of x
             = calls_of (HTTPConnection._new_conn env self) ++ tun :: rest
             /\ (failed tun = false -> auto_open (self_of x) = 0)
             /\ (failed tun = true ->
                 rest = [] /\ returned (result_of x) = false)).
  { destruct H as [rest [Hcalls [Hopen Hfail]]]. exists rest.
    split; [exact Hcalls|]. split; [|exact Hfail].
    intros Hok. split; [exact (Hopen Hok)|].
    intros v'. apply auto_open_stays_0. exact (Hopen Hok). }
  subst x tun.
  apply truthy_nonempty in Hne.
  rewrite new_conn_run in *. revert Hnew.
  unfold tunnel_event, tunnel_hostport.
  destruct Hv; subst v;
    [ paths (connect env Plain self) | paths (connect env Unverified self) ];
    repeat head_match;
    intros Hnew; try discriminate Hnew;
    cbn [result_of fst] in Hnew; injection Hnew as ->;
    repeat match goal with
    | H : context [_tunnel_host self] |- _ =>
        lazymatch H with Hth => fail | _ => rewrite Hth in H end
    end;
    cbn [of_opt_str] in *; try congruence;
    unfold logged; cbn [calls_of result_of self_of fst snd app failed];
    repeat match goal with
    | u : unit |- _ => destruct u
    end;
    repeat match goal with
    | H : tunnel_handshake _ _ _ _ = _ |- _ => rewrite H; clear H
    end;
    eexists; (split; [reflexivity|]);
    cbn [returned negb auto_open set_sock set_auto_open];
    split; intros; try discriminate; auto.
Qed.

Lemma trajectory_options (conn : socket) (l : list sockopt) (rest : list event)
    (ok : bool) :
  trajectory RawConnected
    (map (setsockopt_event env conn) (applied env conn l) ++ rest) ok
  = match options_result env conn l with
    | Return _ => trajectory RawConnected rest ok
    | Raise _ => Failed :: trajectory Failed rest ok
    end.
Proof.
  induction l as [|opt l IH]; [reflexivity|].
  cbn [applied options_result map app trajectory].
  unfold setsockopt_event at 1. cbn [failed substep stage].
  destruct (setsockopt env conn opt) as [[]|e]; cbn [returned negb].
  - exact IH.
  - reflexivity.
Qed.

Lemma trajectory_sent (self : Conn) (conn : socket) (rest : list event)
    (ok : bool) :
  trajectory Unconnected (sent env self conn ++ rest) ok
  = RawConnected
    :: match options_result env conn (options_of self) with
       | Return _ => trajectory RawConnected rest ok
       | Raise _ => Failed :: trajectory Failed rest ok
       end.
Proof.
  unfold sent. cbn [app trajectory dialled failed returned negb substep stage].
  cbn [andb]. rewrite trajectory_options. reflexivity.
Qed.

Lemma trajectory_sent0 (self : Conn) (conn : socket) (ok : bool) :
  trajectory Unconnected (sent env self conn) ok
  = RawConnected
    :: match options_result env conn (options_of self) with
       | Return _ => trajectory RawConnected [] ok
       | Raise _ => Failed :: trajectory Failed [] ok
       end.
Proof.
  rewrite <- (app_nil_r (sent env self conn)). apply trajectory_sent.
Qed.

(** [Failed] is the last state: nothing lies beyond it. *)
Lemma nothing_after_Failed (l : list conn_state) :
  StronglySorted forward (Failed :: l) -> l = [].
Proof.
  intros H. apply StronglySorted_inv in H. destruct H as [_ H].
  destruct l as [|s l]; [reflexivity|].
  apply Forall_inv in H. unfold forward in H. destruct s; cbn in H; lia.
Qed.

Lemma trajectory_Failed_nil (l : list event) (ok : bool) :
  trajectory Failed l ok = [] -> l = [] /\ ok = false.
Proof.
  destruct l as [|e l]; cbn [trajectory].
  - destruct ok; [discriminate|]. auto.
  - destruct (failed e); [discriminate|].
    replace (substep e && conn_state_eqb (stage e) Failed) with false
      by (destruct e; reflexivity).
    discriminate.
Qed.

(** Whenever the states of a record of calls go strictly forward, a failed
    call in it is the last one, and the run did not return. *)
Lemma failure_is_terminal (l1 : list event) :
  forall (cur : conn_state) (l : list event) (ok : bool),
    StronglySorted forward (cur :: trajectory cur l ok) ->
    forall e l2, l = l1 ++ e :: l2 -> failed e = true ->
    l2 = [] /\ ok = false.
Proof.
  induction l1 as [|e0 l1 IH]; intros cur l ok Hs e l2 -> He.
  - cbn [app trajectory] in Hs. rewrite He in Hs.
    apply StronglySorted_inv in Hs. destruct Hs as [Hs _].
    apply nothing_after_Failed in Hs.
    apply trajectory_Failed_nil in Hs. exact Hs.
  - cbn [app trajectory] in Hs.
    destruct (failed e0).
    + apply StronglySorted_inv in Hs. destruct Hs as [Hs _].
      exact (IH _ _ _ Hs e l2 eq_refl He).
    + destruct (substep e0 && conn_state_eqb (stage e0) cur).
      * exact (IH _ _ _ Hs e l2 eq_refl He).
      * apply StronglySorted_inv in Hs. destruct Hs as [Hs _].
        exact (IH _ _ _ Hs e l2 eq_refl He).
Qed.

Ltac forward_path :=
  unfold states, logged;
  cbn [calls_of result_of self_of fst snd returned app];
  rewrite ?trajectory_sent, ?trajectory_sent0;
  repeat match goal with
  | H : options_result _ _ _ = _ |- _ => rewrite H
  end;
  cbn [trajectory dialled failed substep stage conn_state_eqb rank Nat.eqb
       returned negb andb last];
  split; [repeat constructor; unfold forward; cbn [rank]; lia|];
  split; [reflexivity|];
  intros Hret; try discriminate Hret; eexists; reflexivity.

Lemma connect_states (v : variant) (self : Conn) :
  let x := connect env v self in
  StronglySorted forward (states x)
  /\ last (states x) Unconnected
     = (if returned (result_of x) then Ready else Failed)
  /\ (returned (result_of x) = true ->
      exists rest, states x = Unconnected :: RawConnected :: rest).
Proof.
  cbv zeta.
  destruct v;
    [ paths (connect env Plain self) | paths (connect env Unverified self)
    | paths (connect env Verified self) ];
    forward_path.
Qed.

(** C7. The states of a connect, for each of the three variants, read off
    its calls: they start at Unconnected and every next state lies strictly
    further along Unconnected, RawConnected, Tunneled, TLSWrapped, Ready,
    Failed (so no state is visited twice, no step is taken twice and none
    is gone back to); the last one is Ready when connect returns and Failed
    when it raises; a connect that returns went from Unconnected to
    RawConnected first; and a call that fails is the last call of the
    attempt, which then raises. *)
Theorem connect_moves_forward (v : variant) (self : Conn) :
  let x := connect env v self in
  StronglySorted forward (states x)
  /\ last (states x) Unconnected
     = (if returned (result_of x) then Ready else Failed)
  /\ (returned (result_of x) = true ->
      exists rest, states x = Unconnected :: RawConnected :: rest)
  /\ (forall l1 e l2,
        calls_of x = l1 ++ e :: l2 -> failed e = true ->
        l2 = [] /\ returned (result_of x) = false).
Proof.
  intros x. destruct (connect_states v self) as [Hs [Hlast Hraw]].
  split; [exact Hs|]. split; [exact Hlast|]. split; [exact Hraw|].
  intros l1 e l2 Hcalls He.
  exact (failure_is_terminal l1 _ _ _ Hs e l2 Hcalls He).
Qed.

Lemma PyVal_eqb_eq (a b : PyVal) : PyVal_eqb a b = true <-> a = b.
Proof.
  destruct a as [|x|x|x], b as [|y|y|y]; cbn [PyVal_eqb];
    try (split; discriminate).
  - split; reflexivity.
  - rewrite Bool.eqb_true_iff. split; congruence.
  - rewrite Z.eqb_eq. split; congruence.
  - rewrite String.eqb_eq. split; congruence.
Qed.

Lemma assert_fingerprint_returns (cert : peercert) (fp : PyVal) :
  util.assert_fingerprint env cert fp = Return tt
  <-> PyStr (fingerprint env cert) = fp.
Proof.
  unfold util.assert_fingerprint. rewrite <- PyVal_eqb_eq.
  destruct (PyVal_eqb (PyStr (fingerprint env cert)) fp);
    split; congruence.
Qed.

Lemma required_not_none (reqs : CertReqs) :
  reqs <> CERT_NONE -> negb (CertReqs_eqb reqs CERT_NONE) = true.
Proof. destruct reqs; [contradiction | reflexivity | reflexivity]. Qed.

Lemma is_not_False_iff (v : PyVal) : is_not_False v = false <-> v = PyBool false.
Proof.
  destruct v as [|[]| |]; cbn [is_not_False]; split;
    congruence || discriminate.
Qed.

(** What follows the TLS handshake of a verified connect, read off the
    attributes: the check that is called, with its result as the result of
    connect. *)
Lemma post_handshake (self : Conn) (reqs : CertReqs) (t : sslsocket) :
  resolve_cert_reqs env (cert_reqs self) = Return reqs ->
  reqs <> CERT_NONE ->
  let x := VerifiedHTTPSConnection.connect env self in
  tls_socket (calls_of x) = Some t ->
  match assert_fingerprint self with
  | None =>
      checks (calls_of x) = []
      /\ result_of x = Raise (AttributeError "assert_fingerprint")
  | Some fp =>
      if truthy fp then
        let cert := getpeercert env t true in
        let r := util.assert_fingerprint env cert fp in
        checks (calls_of x) = [Ev_assert_fingerprint cert fp r]
        /\ result_of x = r
      else
        match assert_hostname self with
        | None =>
            checks (calls_of x) = []
            /\ result_of x = Raise (AttributeError "assert_hostname")
        | Some ah =>
            if is_not_False ah then
              let cert := getpeercert env t false in
              let hostname := py_or ah (of_opt_str (effective_hostname self)) in
              let r := match_hostname env cert hostname in
              checks (calls_of x) = [Ev_match_hostname cert hostname r]
              /\ result_of x = r
            else checks (calls_of x) = [] /\ result_of x = Return tt
        end
  end.
Proof.
  intros Hreqs Hreq x. subst x. apply required_not_none in Hreq.
  paths (VerifiedHTTPSConnection.connect env self);
    observe; intros Htls; try discriminate Htls;
    injection Htls as <-; settle; split; reflexivity.
Qed.

(** A verified connect that did not complete a TLS handshake has raised,
    and has called no certificate check. *)
Lemma no_handshake (self : Conn) :
  let x := VerifiedHTTPSConnection.connect env self in
  tls_socket (calls_of x) = None ->
  returned (result_of x) = false /\ checks (calls_of x) = [].
Proof.
  cbv zeta.
  paths (VerifiedHTTPSConnection.connect env self);
    observe; intros Htls; try discriminate Htls; split; reflexivity.
Qed.

(** C1. In a verified connect whose resolved certificate requirement is
    not CERT_NONE and whose TLS handshake completed, never more than one
    certificate check is called, the fingerprint one first in line.
    (1) With a fingerprint configured, the one check is assert_fingerprint on
    the peer's binary certificate, and connect returns exactly when the
    certificate's fingerprint equals the configured one; neither the host,
    nor assert_hostname (which need not even exist), nor match_hostname has
    a say.
    (2) Otherwise, with assert_hostname anything but False, the one check is
    match_hostname on the peer's certificate, and connect returns exactly
    when it does.
    (3) With no fingerprint and assert_hostname False, no check is called
    and connect returns. *)
Theorem verified_checks (self : Conn) (reqs : CertReqs) (t : sslsocket) :
  resolve_cert_reqs env (cert_reqs self) = Return reqs ->
  reqs <> CERT_NONE ->
  let x := VerifiedHTTPSConnection.connect env self in
  tls_socket (calls_of x) = Some t ->
  (List.length (checks (calls_of x)) <= 1)%nat
  /\ (forall fp,
        assert_fingerprint self = Some fp -> truthy fp = true ->
        let cert := getpeercert env t true in
        checks (calls_of x)
        = [Ev_assert_fingerprint cert fp (util.assert_fingerprint env cert fp)]
        /\ (result_of x = Return tt <-> PyStr (fingerprint env cert) = fp))
  /\ (forall fp ah,
        assert_fingerprint self = Some fp -> truthy fp = false ->
        assert_hostname self = Some ah -> ah <> PyBool false ->
        let cert := getpeercert env t false in
        let hostname := py_or ah (of_opt_str (effective_hostname self)) in
        checks (calls_of x)
        = [Ev_match_hostname cert hostname (match_hostname env cert hostname)]
        /\ (result_of x = Return tt
            <-> match_hostname env cert hostname = Return tt))
  /\ (forall fp,
        assert_fingerprint self = Some fp -> truthy fp = false ->
        assert_hostname self = Some (PyBool false) ->
        checks (calls_of x) = [] /\ result_of x = Return tt).
Proof.
  intros Hreqs Hreq x Htls.
  pose proof (post_handshake self reqs t Hreqs Hreq Htls) as H.
  fold x in H. split; [|split; [|split]].
  - destruct (assert_fingerprint self) as [fp|];
      [destruct (truthy fp);
       [|destruct (assert_hostname self) as [ah|];
         [destruct (is_not_False ah)|]]|];
      destruct H as [-> _]; cbn [List.length]; lia.
  - intros fp Hfp Htrue cert. rewrite Hfp, Htrue in H.
    destruct H as [Hcalls Hres]. split; [exact Hcalls|].
    rewrite Hres. apply assert_fingerprint_returns.
  - intros fp ah Hfp Hfalse Hah Hne cert hostname.
    rewrite Hfp, Hfalse, Hah in H.
    destruct (is_not_False ah) eqn:Hnf.
    + destruct H as [Hcalls Hres]. split; [exact Hcalls|].
      rewrite Hres. reflexivity.
    + apply is_not_False_iff in Hnf. contradiction.
  - intros fp Hfp Hfalse Hah. rewrite Hfp, Hfalse, Hah in H. exact H.
Qed.

(** C9. In a verified connect with no fingerprint configured and
    assert_hostname a non-empty string, the hostname check that follows the
    handshake matches the certificate against that string, whatever the
    connection host and the tunnel host are; its result is connect's. *)
Theorem assert_hostname_overrides (self : Conn) (reqs : CertReqs)
    (t : sslsocket) (fp : PyVal) (s : string) :
  resolve_cert_reqs env (cert_reqs self) = Return reqs ->
  reqs <> CERT_NONE ->
  assert_fingerprint self = Some fp -> truthy fp = false ->
  assert_hostname self = Some (PyStr s) -> s <> EmptyString ->
  let x := VerifiedHTTPSConnection.connect env self in
  tls_socket (calls_of x) = Some t ->
  let cert := getpeercert env t false in
  checks (calls_of x)
  = [Ev_match_hostname cert (PyStr s) (match_hostname env cert (PyStr s))]
  /\ result_of x = match_hostname env cert (PyStr s).
Proof.
  intros Hreqs Hreq Hfp Hfalse Hah Hs x Htls cert.
  pose proof (post_handshake self reqs t Hreqs Hreq Htls) as H.
  rewrite Hfp, Hfalse, Hah in H. cbn [is_not_False] in H.
  unfold py_or in H. rewrite (truthy_nonempty s Hs) in H. exact H.
Qed.

(** C10. The constructor leaves assert_fingerprint and assert_hostname
    absent and set_cert creates them.  A verified connect on a connection
    without assert_fingerprint, with a resolved certificate requirement other
    than CERT_NONE, raises: no certificate check is called, against the
    connection host or anything else, and once the handshake is through the
    exception is the AttributeError of the missing attribute. *)
Theorem connect_without_set_cert_fails (self : Conn) (reqs : CertReqs) :
  assert_fingerprint self = None ->
  resolve_cert_reqs env (cert_reqs self) = Return reqs ->
  reqs <> CERT_NONE ->
  let x := VerifiedHTTPSConnection.connect env self in
  (forall h p k c tmo src opts,
      let fresh := HTTPSConnection.__init__ env h p k c tmo src opts in
      assert_fingerprint fresh = None /\ assert_hostname fresh = None)
  /\ (forall k c cr ca ah fp,
        let configured := VerifiedHTTPSConnection.set_cert k c cr ca ah fp self in
        assert_fingerprint configured = Some fp
        /\ assert_hostname configured = Some ah)
  /\ returned (result_of x) = false
  /\ checks (calls_of x) = []
  /\ (forall t,
        tls_socket (calls_of x) = Some t ->
        result_of x = Raise (AttributeError "assert_fingerprint")).
Proof.
  intros Hnone Hreqs Hreq x.
  split; [intros; split; reflexivity|].
  split; [intros; split; reflexivity|].
  destruct (tls_socket (calls_of x)) as [t|] eqn:Htls.
  - pose proof (post_handshake self reqs t Hreqs Hreq Htls) as H.
    fold x in H. rewrite Hnone in H. destruct H as [Hcalls Hres].
    rewrite Hres. split; [reflexivity|]. split; [exact Hcalls|].
    intros; reflexivity.
  - destruct (no_handshake self Htls) as [Hres Hcalls].
    split; [exact Hres|]. split; [exact Hcalls|]. discriminate.
Qed.

Ltac among_calls H :=
  repeat match type of H with
  | In _ (sent _ _ _ ++ _) =>
      apply in_app_or in H; destruct H as [H|H];
      [apply in_sent in H; destruct H as [H|[? [? H]]];
       unfold dialled in H; discriminate H|]
  | In _ (sent _ _ _) =>
      apply in_sent in H; destruct H as [H|[? [? H]]];
      unfold dialled in H; discriminate H
  | In _ (_ :: _) =>
      destruct H as [H|H]; [try discriminate H|]
  | In _ [] => destruct H
  end.

(** C2, as the code has it.  In a verified connect with a tunnel host
    configured: a tunnel handshake that succeeded leaves auto_open at 0;
    every TLS wrap is given the tunnel host, not the host the socket was
    connected to, as server_hostname; and every hostname check matches
    against assert_hostname when that is a true value, and against the
    tunnel host otherwise. *)
Theorem tunnel_target_is_verified (self : Conn) (th : string) :
  _tunnel_host self = Some th -> th <> EmptyString ->
  let x := VerifiedHTTPSConnection.connect env self in
  (forall sk h p,
      In (Ev_tunnel sk h p (Return tt)) (calls_of x) ->
      auto_open (self_of x) = 0)
  /\ (forall s k c reqs ca hn v r,
        In (Ev_ssl_wrap_socket s k c reqs ca hn v r) (calls_of x) ->
        hn = Some th)
  /\ (forall c hn r,
        In (Ev_match_hostname c hn r) (calls_of x) ->
        exists ah,
          assert_hostname self = Some ah
          /\ hn = if truthy ah then ah else PyStr th).
Proof.
  intros Hth Hne x. subst x. apply truthy_nonempty in Hne.
  paths (VerifiedHTTPSConnection.connect env self);
    settle; cbn [of_opt_str] in *; try congruence;
    unfold logged; cbn [calls_of self_of fst snd app];
    (split; [|split]); intros;
    match goal with
    | H : In _ _ |- _ => among_calls H; try (injection H as <-); subst
    end;
    try reflexivity;
    eexists; split; reflexivity.
Qed.

(** * Further properties of the three connects *)

(** X1. A dial that fails with anything but a timeout: every connect raises
    that very exception, has called nothing but the dial, and leaves the
    connection object as it was. *)
Theorem dial_error_propagates (v : variant) (self : Conn) (e : exn) :
  dial env self = Raise e ->
  is_SocketTimeout e = false ->
  connect env v self = (Raise e, self, [dialled self (Raise e)]).
Proof.
  intros Hdial He.
  destruct v; unfold connect, HTTPConnection.connect,
    UnverifiedHTTPSConnection.connect, VerifiedHTTPSConnection.connect;
    rewrite bind_new_conn, Hdial, He; reflexivity.
Qed.

(** X2. A socket option that is refused: every connect raises the error of
    that setsockopt call, its calls are the dial and the setsockopt calls up
    to the refused one, no tunnel and no TLS wrap is attempted, and the
    connection object is as it was; self.sock in particular was never
    assigned the socket that the dial returned. *)
Theorem refused_option_aborts (v : variant) (self : Conn) (conn : socket)
    (e : exn) :
  dial env self = Return conn ->
  result_of (HTTPConnection._set_options_on env conn self) = Raise e ->
  connect env v self
  = (Raise e, self,
     dialled self (Return conn)
     :: calls_of (HTTPConnection._set_options_on env conn self)).
Proof.
  intros Hdial Hopt. rewrite set_options_on_run in *.
  cbn [result_of calls_of fst snd] in *.
  destruct v; unfold connect, HTTPConnection.connect,
    UnverifiedHTTPSConnection.connect, VerifiedHTTPSConnection.connect;
    rewrite bind_new_conn, Hdial, Hopt; reflexivity.
Qed.

Ltac variant_paths v self :=
  destruct v;
  [ paths (connect env Plain self) | paths (connect env Unverified self)
  | paths (connect env Verified self) ].

Lemma existsb_sent (f : event -> bool) (self : Conn) (conn : socket)
    (rest : list event) :
  (forall opt r, f (Ev_setsockopt conn opt r) = false) ->
  (forall r, f (dialled self r) = false) ->
  existsb f (sent env self conn ++ rest) = existsb f rest.
Proof.
  intros Hopt Hdial. unfold sent. cbn [app existsb]. rewrite Hdial.
  cbn [orb]. rewrite existsb_app.
  replace (existsb f (map (setsockopt_event env conn)
                        (applied env conn (options_of self)))) with false;
    [reflexivity|].
  symmetry. induction (applied env conn (options_of self)) as [|opt l IH];
    [reflexivity|].
  cbn [map existsb]. unfold setsockopt_event at 1. rewrite Hopt. exact IH.
Qed.

Lemma existsb_sent0 (f : event -> bool) (self : Conn) (conn : socket) :
  (forall opt r, f (Ev_setsockopt conn opt r) = false) ->
  (forall r, f (dialled self r) = false) ->
  existsb f (sent env self conn) = false.
Proof.
  intros Hopt Hdial. rewrite <- (app_nil_r (sent env self conn)).
  rewrite existsb_sent by assumption. reflexivity.
Qed.

(** X3. Without a tunnel host, be it None or the empty string, no connect
    talks to a proxy: no tunnel handshake is among its calls, and auto_open,
    host and port are left as they were. *)
Theorem without_tunnel_host (v : variant) (self : Conn) :
  truthy (of_opt_str (_tunnel_host self)) = false ->
  let x := connect env v self in
  filter is_tunnel (calls_of x) = []
  /\ auto_open (self_of x) = auto_open self
  /\ host (self_of x) = host self
  /\ port (self_of x) = port self.
Proof.
  intros Hnone. cbv zeta.
  variant_paths v self; observe; cbn [filter is_tunnel];
    repeat split; reflexivity.
Qed.


(** X5. What connect does to auto_open, in every variant and on every path:
    it is 0 after a connect one of whose calls was a tunnel handshake that
    succeeded, and what it was before after any other connect. *)
Theorem auto_open_after_connect (v : variant) (self : Conn) :
  let x := connect env v self in
  auto_open (self_of x)
  = if existsb tunnel_succeeded (calls_of x) then 0 else auto_open self.
Proof.
  cbv zeta.
  variant_paths v self; observe;
    rewrite ?existsb_sent, ?existsb_sent0 by reflexivity;
    reflexivity.
Qed.

(** X6. No connect touches the configuration: the timeout, the source
    address, the socket options, the tunnel host and port, the key and
    certificate files, the certificate requirement, the CA bundle, the TLS
    version and the two assert attributes (their absence included) are the
    same after as before, whether connect returns or raises. *)
Theorem connect_keeps_configuration (v : variant) (self : Conn) :
  config_of (self_of (connect env v self)) = config_of self.
Proof.
  variant_paths v self; observe; reflexivity.
Qed.

(** X7. A verified connect whose resolved certificate requirement is
    CERT_NONE returns exactly when the TLS handshake completes: nothing
    after the handshake can make it raise, and the assert attributes are
    not even needed to exist. *)
Theorem cert_none_returns_iff_handshake (self : Conn) :
  resolve_cert_reqs env (cert_reqs self) = Return CERT_NONE ->
  let x := VerifiedHTTPSConnection.connect env self in
  result_of x = Return tt <-> exists t, tls_socket (calls_of x) = Some t.
Proof.
  intros Hnone. cbv zeta.
  paths (VerifiedHTTPSConnection.connect env self); observe;
    try discriminate;
    (split; [intros H; try discriminate H; eexists; reflexivity|]);
    intros [t Ht]; try discriminate Ht; reflexivity.
Qed.

(** X8. When connect returns, self.sock is the socket to talk through: in
    the plain variant the very socket the dial returned, in the two HTTPS
    variants the TLS socket that the wrap of that socket returned. *)
Theorem sock_after_connect (v : variant) (self : Conn) :
  let x := connect env v self in
  returned (result_of x) = true ->
  exists conn,
    dial env self = Return conn
    /\ match v with
       | Plain => sock (self_of x) = Some (PlainSock conn)
       | Unverified =>
           exists t k c reqs ca,
             In (Ev_wrap_socket conn k c reqs ca (Return t)) (calls_of x)
             /\ sock (self_of x) = Some (TLSSock t)
       | Verified =>
           exists t k c reqs ca hn ver,
             In (Ev_ssl_wrap_socket conn k c reqs ca hn ver (Return t))
                (calls_of x)
             /\ sock (self_of x) = Some (TLSSock t)
       end.
Proof.
  cbv zeta.
  variant_paths v self; observe; intros Hret; try discriminate Hret;
    eexists; (split; [reflexivity|]); try reflexivity;
    repeat eexists; apply in_or_app; right; cbn [In]; eauto.
Qed.

(** X9. A TLS wrap that fails makes connect raise the error of the wrap,
    with no certificate check attempted.  What is left in self.sock differs:
    the unverified variant, and the verified one when it tunnels, have
    stored the raw socket by then; the verified variant without tunnel has
    not, and self.sock is what it was before connect. *)
Theorem failed_wrap_leaves_sock (self : Conn) :
  let xu := UnverifiedHTTPSConnection.connect env self in
  let xv := VerifiedHTTPSConnection.connect env self in
  (forall s k c reqs ca e,
      In (Ev_wrap_socket s k c reqs ca (Raise e)) (calls_of xu) ->
      result_of xu = Raise e /\ sock (self_of xu) = Some (PlainSock s))
  /\ (forall s k c reqs ca hn ver e,
        In (Ev_ssl_wrap_socket s k c reqs ca hn ver (Raise e)) (calls_of xv) ->
        result_of xv = Raise e
        /\ checks (calls_of xv) = []
        /\ sock (self_of xv)
           = if truthy (of_opt_str (_tunnel_host self))
             then Some (PlainSock s) else sock self).
Proof.
  cbv zeta. split.
  - paths (UnverifiedHTTPSConnection.connect env self);
      unfold logged; cbn [calls_of result_of self_of fst snd app];
      intros s0 k c reqs ca e0 Hin; among_calls Hin;
      injection Hin as <- <- <- <- <- <-; split; reflexivity.
  - paths (VerifiedHTTPSConnection.connect env self);
      intros s0 k c reqs ca hn ver e0 Hin; observe;
      unfold logged in Hin; cbn [calls_of fst snd app] in Hin;
      among_calls Hin; settle; cbn [of_opt_str] in *;
      injection Hin as <- <- <- <- <- <- <- <-;
      settle; repeat split; reflexivity.
Qed.

(** X10. A certificate requirement or a TLS version that cannot be resolved
    is found out only after the raw connection is made: the verified connect
    raises the resolver's exception once _new_conn has returned, with the
    calls of _new_conn behind it and neither tunnel nor TLS wrap attempted,
    and the connection object as it was. *)
Theorem unresolved_setting_raises_after_dial (self : Conn) (conn : socket)
    (e : exn) :
  result_of (HTTPConnection._new_conn env self) = Return conn ->
  resolve_cert_reqs env (cert_reqs self) = Raise e
  \/ (exists reqs,
        resolve_cert_reqs env (cert_reqs self) = Return reqs
        /\ resolve_ssl_version env (ssl_version self) = Raise e) ->
  VerifiedHTTPSConnection.connect env self
  = (Raise e, self, calls_of (HTTPConnection._new_conn env self)).
Proof.
  intros Hnew Hres. unfold VerifiedHTTPSConnection.connect.
  rewrite bind_new_conn. rewrite new_conn_run in *.
  destruct (dial env self) as [c|e0]; [|discriminate Hnew].
  destruct (options_result env c (options_of self)) as [[]|e0];
    [|discriminate Hnew].
  cbn [calls_of snd]. rewrite bind_get, bind_lift.
  destruct Hres as [Hreq|[reqs [Hreq Hver]]]; rewrite Hreq.
  - unfold logged. cbn [result_of self_of calls_of fst snd].
    rewrite app_nil_r. reflexivity.
  - rewrite bind_get, bind_lift, Hver.
    unfold logged. cbn [result_of self_of calls_of fst snd].
    rewrite app_nil_r. reflexivity.
Qed.

(** X11. The calls of a verified connect that returns, in order: those of
    _new_conn; the tunnel handshake over the raw socket, if a tunnel host
    is configured; one TLS wrap of that same raw socket, given the key file,
    the certificate file and the CA bundle of the connection, the resolved
    certificate requirement and TLS version, and as server hostname the
    tunnel host if there is one and the connection host otherwise; then the
    certificate checks, and nothing else. *)
Theorem calls_of_verified_connect (self : Conn) :
  let x := VerifiedHTTPSConnection.connect env self in
  returned (result_of x) = true ->
  exists conn reqs ver t,
    dial env self = Return conn
    /\ resolve_cert_reqs env (cert_reqs self) = Return reqs
    /\ resolve_ssl_version env (ssl_version self) = Return ver
    /\ calls_of x
       = calls_of (HTTPConnection._new_conn env self)
         ++ tunnel_calls env self conn
         ++ Ev_ssl_wrap_socket conn (key_file self) (cert_file self) reqs
              (ca_certs self) (effective_hostname self) ver (Return t)
            :: checks (calls_of x).
Proof.
  cbv zeta. rewrite new_conn_run. unfold tunnel_calls, tunnel_hostport.
  paths (VerifiedHTTPSConnection.connect env self);
    repeat head_match; observe; intros Hret; try discriminate Hret;
    settle; cbn [of_opt_str] in *;
    try congruence;
    repeat match goal with
    | H : truthy (PyStr _) = _ |- _ => rewrite H
    end;
    exists a; do 3 eexists;
    (split; [reflexivity|]); (split; [reflexivity|]);
    (split; [reflexivity|]);
    cbn [calls_of snd app]; reflexivity.
Qed.

(** X12. The calls of a plain and of an unverified connect that returns, in
    order: those of _new_conn; the tunnel handshake over the raw socket, if
    a tunnel host is configured; and, in the unverified variant, one
    ssl.wrap_socket of that raw socket with the key file and the
    certificate file of the connection. *)
Theorem calls_of_unverified_connect (self : Conn) :
  let xp := HTTPConnection.connect env self in
  let xu := UnverifiedHTTPSConnection.connect env self in
  (returned (result_of xp) = true ->
   exists conn,
     dial env self = Return conn
     /\ calls_of xp
        = calls_of (HTTPConnection._new_conn env self)
          ++ tunnel_calls env self conn)
  /\ (returned (result_of xu) = true ->
      exists conn t,
        dial env self = Return conn
        /\ calls_of xu
           = calls_of (HTTPConnection._new_conn env self)
             ++ tunnel_calls env self conn
             ++ [Ev_wrap_socket conn (key_file self) (cert_file self)
                   CERT_NONE None (Return t)]).
Proof.
  cbv zeta. rewrite new_conn_run. unfold tunnel_calls, tunnel_hostport.
  split.
  - paths (HTTPConnection.connect env self);
      repeat head_match; observe; intros Hret; try discriminate Hret;
      settle; cbn [of_opt_str] in *;
      try congruence;
      repeat match goal with
      | H : truthy (PyStr _) = _ |- _ => rewrite H
      end;
      exists a; (split; [reflexivity|]);
      cbn [calls_of snd app]; rewrite ?app_nil_r; reflexivity.
  - paths (UnverifiedHTTPSConnection.connect env self);
      repeat head_match; observe; intros Hret; try discriminate Hret;
      settle; cbn [of_opt_str] in *;
      try congruence;
      repeat match goal with
      | H : truthy (PyStr _) = _ |- _ => rewrite H
      end;
      exists a; eexists; (split; [reflexivity|]);
      cbn [calls_of snd app]; reflexivity.
Qed.

(** Whatever a verified connect hands to the TLS wrap, it has read from the
    connection. *)
Lemma wrap_arguments (self : Conn) :
  forall sk kf cf reqs ca hn ver r,
    In (Ev_ssl_wrap_socket sk kf cf reqs ca hn ver r)
       (calls_of (VerifiedHTTPSConnection.connect env self)) ->
    dial env self = Return sk
    /\ kf = key_file self /\ cf = cert_file self /\ ca = ca_certs self
    /\ resolve_cert_reqs env (cert_reqs self) = Return reqs
    /\ resolve_ssl_version env (ssl_version self) = Return ver
    /\ hn = effective_hostname self.
Proof.
  paths (VerifiedHTTPSConnection.connect env self);
    intros sk kf cf reqs ca hn ver r Hin;
    unfold logged in Hin; cbn [calls_of fst snd app] in Hin;
    among_calls Hin; settle; cbn [of_opt_str] in *;
    injection Hin as <- <- <- <- <- <- <- <-;
    settle; repeat split; reflexivity.
Qed.

(** X13. set_cert replaces what the constructor or an earlier set_cert
    stored, all six values at once, and a verified connect wraps with the
    values of the last set_cert: the key file, the certificate file and the
    CA bundle it was given, and the resolution of its cert_reqs. *)
Theorem set_cert_reaches_the_wrap (s : Conn) (k c : option string)
    (cr : PyVal) (ca : option string) (ah fp : PyVal) :
  let self := VerifiedHTTPSConnection.set_cert k c cr ca ah fp s in
  (forall k' c' cr' ca' ah' fp',
      VerifiedHTTPSConnection.set_cert k c cr ca ah fp
        (VerifiedHTTPSConnection.set_cert k' c' cr' ca' ah' fp' s)
      = self)
  /\ (forall sk kf cf reqs ca0 hn ver r,
        In (Ev_ssl_wrap_socket sk kf cf reqs ca0 hn ver r)
           (calls_of (VerifiedHTTPSConnection.connect env self)) ->
        kf = k /\ cf = c /\ ca0 = ca
        /\ resolve_cert_reqs env cr = Return reqs).
Proof.
  intros self. split; [reflexivity|].
  intros sk kf cf reqs ca0 hn ver r Hin.
  destruct (wrap_arguments self sk kf cf reqs ca0 hn ver r Hin)
    as [_ [Hk [Hc [Hca [Hreq _]]]]].
  repeat split; assumption.
Qed.

(** X14. A plain connection fresh from the constructor, connected: the dial
    goes to what _set_hostport makes of the host, the port and the default
    port 80.  With the socket_options keyword left out the one further call
    sets TCP_NODELAY; with socket_options None, and just as well with the
    empty list, there is no further call.  On return self.sock is the raw
    socket and auto_open still 1. *)
Theorem fresh_plain_connect (h : string) (p : option Z) (tmo : PyVal)
    (src : option (string * Z)) (conn : socket) :
  let fresh := HTTPConnection.__init__ env h p tmo src in
  let address := _set_hostport env h p 80 in
  let dialled_ok :=
    Ev_create_connection address tmo
      (match src with Some a => [a] | None => [] end) (Return conn) in
  create_connection env address tmo
    (match src with Some a => [a] | None => [] end) = Return conn ->
  (setsockopt env conn (IPPROTO_TCP, TCP_NODELAY, 1) = Return tt ->
   HTTPConnection.connect env (fresh None)
   = (Return tt, set_sock (Some (PlainSock conn)) (fresh None),
      [dialled_ok;
       Ev_setsockopt conn (IPPROTO_TCP, TCP_NODELAY, 1) (Return tt)]))
  /\ HTTPConnection.connect env (fresh (Some None))
     = (Return tt, set_sock (Some (PlainSock conn)) (fresh (Some None)),
        [dialled_ok])
  /\ HTTPConnection.connect env (fresh (Some (Some [])))
     = (Return tt, set_sock (Some (PlainSock conn)) (fresh (Some (Some []))),
        [dialled_ok])
  /\ auto_open (set_sock (Some (PlainSock conn)) (fresh None)) = 1.
Proof.
  intros fresh address dialled_ok Hdial.
  assert (Hd : forall o, dial env (fresh o) = Return conn).
  { intros o. unfold dial, extra_args_of, fresh, HTTPConnection.__init__,
      HTTPConnection.init_with.
    cbn [host port timeout source_address].
    destruct (_set_hostport env h p HTTPConnection.class_default_port)
      eqn:Ha.
    cbn [fst snd]. change HTTPConnection.class_default_port with 80 in Ha.
    subst address. rewrite Ha in Hdial. exact Hdial. }
  assert (Hev : forall o, dialled (fresh o) (Return conn) = dialled_ok).
  { intros o. unfold dialled, extra_args_of, fresh, HTTPConnection.__init__,
      HTTPConnection.init_with, dialled_ok, address.
    cbn [host port timeout source_address].
    change HTTPConnection.class_default_port with 80.
    destruct (_set_hostport env h p 80). reflexivity. }
  unfold HTTPConnection.connect, HTTPConnection._prepare_conn.
  split; [intros Hopt|split; [|split]].
  - rewrite bind_new_conn, Hd. unfold sent. rewrite Hev.
    unfold options_of.
    cbn -[IPPROTO_TCP TCP_NODELAY setsockopt set_sock].
    unfold setsockopt_event. rewrite !Hopt.
    cbn -[IPPROTO_TCP TCP_NODELAY]. reflexivity.
  - rewrite bind_new_conn, Hd. unfold sent. rewrite Hev. reflexivity.
  - rewrite bind_new_conn, Hd. unfold sent. rewrite Hev. reflexivity.
  - reflexivity.
Qed.

Lemma dials_once_first_aux (v : variant) (self : Conn) :
  exists rest, calls_of (connect env v self) = dialled self (dial env self) :: rest.
Proof.
  variant_paths v self; unfold logged, sent;
    cbn [calls_of fst snd app]; eexists; reflexivity.
Qed.

(** X15. Every connect dials first, and once: its first call is
    socket.create_connection to (self.host, self.port) with self.timeout,
    with the source address as the one extra argument when one is
    configured and none otherwise, and no later call is a dial. *)
Theorem dials_once_first (v : variant) (self : Conn) :
  exists rest,
    calls_of (connect env v self)
    = Ev_create_connection (host self, port self) (timeout self)
        (match source_address self with Some a => [a] | None => [] end)
        (create_connection env (host self, port self) (timeout self)
           (match source_address self with Some a => [a] | None => [] end))
      :: rest
    /\ filter is_dial rest = [].
Proof.
  change (create_connection env (host self, port self) (timeout self)
            (match source_address self with Some a => [a] | None => [] end))
    with (dial env self).
  variant_paths v self; unfold logged, sent, dialled, extra_args_of;
    cbn [calls_of fst snd app];
    eexists; (split; [reflexivity|]);
    rewrite ?filter_app, ?filter_options by reflexivity;
    reflexivity.
Qed.

(** What the unverified connect hands to ssl.wrap_socket. *)
Lemma plain_wrap_arguments (self : Conn) :
  forall sk kf cf reqs ca r,
    In (Ev_wrap_socket sk kf cf reqs ca r)
       (calls_of (UnverifiedHTTPSConnection.connect env self)) ->
    dial env self = Return sk
    /\ kf = key_file self /\ cf = cert_file self
    /\ reqs = CERT_NONE /\ ca = None.
Proof.
  paths (UnverifiedHTTPSConnection.connect env self);
    intros sk kf cf reqs ca r Hin;
    unfold logged in Hin; cbn [calls_of fst snd app] in Hin;
    among_calls Hin;
    injection Hin as <- <- <- <- <- <-; repeat split; reflexivity.
Qed.

(** X16. An HTTPS connection fresh from its constructor: the default port
    handed to _set_hostport is 443, and the unverified connect dials the
    address that comes back; the key file and the certificate file given to
    the constructor are the ones given to ssl.wrap_socket, whose
    certificate requirement stays CERT_NONE, also when the handshake
    fails. *)
Theorem fresh_https_connect (h : string) (p : option Z)
    (k c : option string) (tmo : PyVal) (src : option (string * Z))
    (opts : option (option (list sockopt))) :
  let fresh := HTTPSConnection.__init__ env h p k c tmo src opts in
  let x := UnverifiedHTTPSConnection.connect env fresh in
  (exists r rest,
      calls_of x
      = Ev_create_connection (_set_hostport env h p 443) tmo
          (match src with Some a => [a] | None => [] end) r
        :: rest)
  /\ (forall sk kf cf reqs ca r,
        In (Ev_wrap_socket sk kf cf reqs ca r) (calls_of x) ->
        kf = k /\ cf = c /\ reqs = CERT_NONE /\ ca = None).
Proof.
  intros fresh x. split.
  - destruct (dials_once_first_aux Unverified fresh) as [rest Hcalls].
    exists (dial env fresh), rest. subst x.
    change (UnverifiedHTTPSConnection.connect env fresh)
      with (connect env Unverified fresh).
    rewrite Hcalls. unfold dialled, extra_args_of.
    unfold fresh, HTTPSConnection.__init__, HTTPConnection.init_with.
    cbn [host port timeout source_address HTTPSConnection.set_key_cert].
    change HTTPSConnection.class_default_port with 443.
    destruct (_set_hostport env h p 443). reflexivity.
  - intros sk kf cf reqs ca r Hin.
    destruct (plain_wrap_arguments fresh sk kf cf reqs ca r Hin)
      as [_ [Hk [Hc [Hreq Hca]]]].
    repeat split; assumption.
Qed.

(** X17. The unverified connect is the plain connect and then one TLS wrap:
    where the plain connect raises, the unverified one raises the same
    exception after the same calls and leaves the same connection object;
    where the plain connect returns, the calls of the unverified one are
    those same calls followed by the one call to ssl.wrap_socket, whose
    result is the result of connect. *)
Theorem unverified_is_plain_then_wrap (self : Conn) :
  let xp := HTTPConnection.connect env self in
  let xu := UnverifiedHTTPSConnection.connect env self in
  match result_of xp with
  | Raise e => xu = xp
  | Return _ =>
      exists conn r,
        dial env self = Return conn
        /\ calls_of xu
           = calls_of xp
             ++ [Ev_wrap_socket conn (key_file self) (cert_file self)
                   CERT_NONE None r]
        /\ returned (result_of xu) = returned r
  end.
Proof.
  cbv zeta.
  paths (HTTPConnection.connect env self);
    paths (UnverifiedHTTPSConnection.connect env self);
    repeat head_match;
    unfold logged; cbn [calls_of result_of self_of fst snd app returned];
    try congruence; try reflexivity;
    exists a; eexists; (split; [reflexivity|]);
    rewrite <- ?app_assoc; cbn [app]; split; reflexivity.
Qed.

End Facts.

(** * The properties at work in the concrete environment *)

Lemma cert_none_invokes_no_check_witness :
  checks (calls_of (VerifiedHTTPSConnection.connect Demo.env Demo.unchecked))
  = [].
Proof.
  apply (cert_none_invokes_no_check Demo.env Demo.unchecked). reflexivity.
Defined.

Lemma unverified_connect_checks_nothing_witness :
  exists conn t,
    dial Demo.env Demo.pinned = Return conn
    /\ filter is_plain_wrap
         (calls_of (UnverifiedHTTPSConnection.connect Demo.env Demo.pinned))
       = [Ev_wrap_socket conn None None CERT_NONE None (Return t)]
    /\ sock (self_of (UnverifiedHTTPSConnection.connect Demo.env Demo.pinned))
       = Some (TLSSock t).
Proof.
  destruct (unverified_connect_checks_nothing Demo.env Demo.pinned)
    as [_ [_ H]].
  apply H. reflexivity.
Defined.

Lemma dial_timeout_raises_ConnectTimeoutError_witness :
  result_of (connect Demo.env Plain Demo.slow)
  = Raise (ConnectTimeoutError Demo.slow
             "Connection to slow.example timed out. (connect timeout=3)").
Proof.
  destruct (dial_timeout_raises_ConnectTimeoutError Demo.env Plain Demo.slow)
    as [_ [H _]]; [reflexivity|]. exact H.
Defined.

Lemma socket_options_applied_witness :
  HTTPConnection._set_options_on Demo.env 3
    (HTTPConnection.__init__ Demo.env "example.com" None PyNone None
       (Some None))
  = (Return tt,
     HTTPConnection.__init__ Demo.env "example.com" None PyNone None
       (Some None), [])
  /\ (exists n,
        calls_of (HTTPConnection._set_options_on Demo.env 3 Demo.custom)
        = map (setsockopt_event Demo.env 3) (firstn n Demo.three_options))
  /\ result_of (HTTPConnection._set_options_on Demo.env 3 Demo.direct)
     = Return tt.
Proof.
  destruct (socket_options_applied Demo.env 3) as [Hnone [_ Hlist]].
  split; [apply Hnone; reflexivity|].
  split.
  - destruct (Hlist Demo.custom Demo.three_options eq_refl) as [H _]. exact H.
  - destruct (Hlist Demo.direct [(IPPROTO_TCP, TCP_NODELAY, 1)] eq_refl)
      as [_ [_ H]].
    apply H. repeat constructor.
Defined.

Lemma connect_moves_forward_witness :
  let x := connect Demo.env Unverified Demo.refused_by_proxy in
  StronglySorted forward (states x)
  /\ last (states x) Unconnected = Failed
  /\ (@nil event = [] /\ returned (result_of x) = false).
Proof.
  destruct (connect_moves_forward Demo.env Unverified Demo.refused_by_proxy)
    as [Hs [Hlast [_ Hfail]]].
  split; [exact Hs|]. split; [exact Hlast|].
  apply (Hfail
           [Ev_create_connection ("proxy.example", 3128) (PyInt 3) []
              (Return 3);
            Ev_setsockopt 3 (6, 1, 1) (Return tt)]
           (Ev_tunnel (Some (PlainSock 3)) "blocked.example" 443
              (Raise (SocketError "Tunnel connection failed: 403 Forbidden")))
           []);
    reflexivity.
Defined.

Lemma prepare_conn_tunnels_witness :
  exists rest,
    calls_of (connect Demo.env Plain Demo.plain_via_proxy)
    = calls_of (HTTPConnection._new_conn Demo.env Demo.plain_via_proxy)
      ++ Ev_tunnel (Some (PlainSock 3)) "example.com" 80 (Return tt) :: rest
    /\ auto_open (self_of (connect Demo.env Plain Demo.plain_via_proxy)) = 0
    /\ forall v',
        auto_open
          (self_of
             (connect Demo.env v'
                (self_of (connect Demo.env Plain Demo.plain_via_proxy))))
        = 0.
Proof.
  destruct (prepare_conn_tunnels Demo.env Plain Demo.plain_via_proxy
              "example.com" 3)
    as [rest [Hcalls [Hopen _]]];
    [left; reflexivity | reflexivity | discriminate | reflexivity |].
  exists rest. split; [exact Hcalls | apply Hopen; reflexivity].
Defined.

Lemma verified_checks_witness :
  (let x := VerifiedHTTPSConnection.connect Demo.env Demo.pinned in
   let cert := getpeercert Demo.env 103 true in
   checks (calls_of x)
   = [Ev_assert_fingerprint cert (PyStr "AA:BB:CC")
        (util.assert_fingerprint Demo.env cert (PyStr "AA:BB:CC"))]
   /\ (result_of x = Return tt
       <-> PyStr (fingerprint Demo.env cert) = PyStr "AA:BB:CC"))
  /\ (let x := VerifiedHTTPSConnection.connect Demo.env Demo.via_proxy in
      let cert := getpeercert Demo.env 103 false in
      checks (calls_of x)
      = [Ev_match_hostname cert (PyStr "example.com")
           (match_hostname Demo.env cert (PyStr "example.com"))]
      /\ (result_of x = Return tt
          <-> match_hostname Demo.env cert (PyStr "example.com") = Return tt))
  /\ (let x := VerifiedHTTPSConnection.connect Demo.env Demo.opted_out in
      checks (calls_of x) = [] /\ result_of x = Return tt).
Proof.
  split; [|split].
  - destruct (verified_checks Demo.env Demo.pinned CERT_REQUIRED 103)
      as [_ [H _]]; [reflexivity | discriminate | reflexivity |].
    exact (H (PyStr "AA:BB:CC") eq_refl eq_refl).
  - destruct (verified_checks Demo.env Demo.via_proxy CERT_REQUIRED 103)
      as [_ [_ [H _]]]; [reflexivity | discriminate | reflexivity |].
    apply (H PyNone PyNone); [reflexivity | reflexivity | reflexivity |].
    discriminate.
  - destruct (verified_checks Demo.env Demo.opted_out CERT_REQUIRED 103)
      as [_ [_ [_ H]]]; [reflexivity | discriminate | reflexivity |].
    exact (H PyNone eq_refl eq_refl eq_refl).
Defined.

Lemma assert_hostname_overrides_witness :
  let x := VerifiedHTTPSConnection.connect Demo.env Demo.overridden in
  let cert := getpeercert Demo.env 103 false in
  checks (calls_of x)
  = [Ev_match_hostname cert (PyStr "proxy.example")
       (match_hostname Demo.env cert (PyStr "proxy.example"))]
  /\ result_of x = match_hostname Demo.env cert (PyStr "proxy.example").
Proof.
  apply (assert_hostname_overrides Demo.env Demo.overridden CERT_REQUIRED 103
           PyNone "proxy.example");
    reflexivity || discriminate.
Defined.

Lemma connect_without_set_cert_fails_witness :
  let x := VerifiedHTTPSConnection.connect Demo.env Demo.bare in
  returned (result_of x) = false
  /\ checks (calls_of x) = []
  /\ result_of x = Raise (AttributeError "assert_fingerprint").
Proof.
  destruct (connect_without_set_cert_fails Demo.env Demo.bare CERT_REQUIRED)
    as [_ [_ [Hres [Hcalls Hexn]]]]; [reflexivity | reflexivity | discriminate |].
  split; [exact Hres|]. split; [exact Hcalls|].
  apply (Hexn 103). reflexivity.
Defined.

Lemma tunnel_target_is_verified_witness :
  let x := VerifiedHTTPSConnection.connect Demo.env Demo.via_proxy in
  auto_open (self_of x) = 0
  /\ Some "example.com" = Some "example.com"
  /\ (exists ah,
        assert_hostname Demo.via_proxy = Some ah
        /\ PyStr "example.com"
           = if truthy ah then ah else PyStr "example.com").
Proof.
  destruct (tunnel_target_is_verified Demo.env Demo.via_proxy "example.com")
    as [Hopen [Hwrap Hmatch]]; [reflexivity | discriminate |].
  split; [|split].
  - apply (Hopen (Some (PlainSock 3)) "example.com" 443).
    cbv. right. right. left. reflexivity.
  - apply (Hwrap 3 None None CERT_REQUIRED
             (Some "/etc/ssl/certs/ca-certificates.crt") (Some "example.com")
             2 (Return 103)).
    cbv. do 3 right. left. reflexivity.
  - apply (Hmatch (DecodedCert [("commonName", "example.com")])
             (PyStr "example.com") (Return tt)).
    cbv. do 4 right. left. reflexivity.
Defined.

(** C2 in its unqualified form does not hold: with assert_hostname set, the
    hostname check of a tunnelled connection is not made against the tunnel
    target.  Here it is made against the very host of the proxy. *)
Lemma tunnel_check_counterexample :
  let self := Demo.overridden in
  let x := VerifiedHTTPSConnection.connect Demo.env self in
  _tunnel_host self = Some "example.com"
  /\ host self = "proxy.example"
  /\ In (Ev_tunnel (Some (PlainSock 3)) "example.com" 443 (Return tt))
       (calls_of x)
  /\ ~ (forall c hn r,
          In (Ev_match_hostname c hn r) (calls_of x) ->
          hn = PyStr "example.com").
Proof.
  cbv zeta. split; [reflexivity|]. split; [reflexivity|]. split.
  - cbv. right. right. left. reflexivity.
  - intros H.
    specialize (H (DecodedCert [("commonName", "example.com")])
                  (PyStr "proxy.example")
                  (Raise (CertificateError "hostname doesn't match"))).
    assert (Hin : In (Ev_match_hostname
                        (DecodedCert [("commonName", "example.com")])
                        (PyStr "proxy.example")
                        (Raise (CertificateError "hostname doesn't match")))
                     (calls_of (VerifiedHTTPSConnection.connect Demo.env
                                  Demo.overridden))).
    { cbv. do 4 right. left. reflexivity. }
    specialize (H Hin). discriminate H.
Qed.

(** * The scenarios of the specification, run *)

Example valid_certificate_is_ready :
  VerifiedHTTPSConnection.connect Demo.env Demo.direct
  = (Return tt, set_sock (Some (TLSSock 103)) Demo.direct,
     [Ev_create_connection ("example.com", 443) (PyInt 3) [] (Return 3);
      Ev_setsockopt 3 (IPPROTO_TCP, TCP_NODELAY, 1) (Return tt);
      Ev_ssl_wrap_socket 3 None None CERT_REQUIRED
        (Some "/etc/ssl/certs/ca-certificates.crt") (Some "example.com") 2
        (Return 103);
      Ev_match_hostname (DecodedCert [("commonName", "example.com")])
        (PyStr "example.com") (Return tt)])
  /\ auto_open Demo.direct = 1.
Proof. split; reflexivity. Qed.

Example other_hostname_is_refused :
  result_of (VerifiedHTTPSConnection.connect Demo.env Demo.overridden)
  = Raise (CertificateError "hostname doesn't match").
Proof. reflexivity. Qed.

Example other_fingerprint_is_refused :
  result_of
    (VerifiedHTTPSConnection.connect Demo.env
       (VerifiedHTTPSConnection.set_cert None None (PyStr "CERT_REQUIRED")
          None PyNone (PyStr "00:00:00") Demo.direct))
  = Raise (FingerprintMismatchError (PyStr "00:00:00") "AA:BB:CC").
Proof. reflexivity. Qed.

Example opt_out_is_honoured :
  result_of (VerifiedHTTPSConnection.connect Demo.env Demo.opted_out)
  = Return tt
  /\ checks (calls_of (VerifiedHTTPSConnection.connect Demo.env Demo.opted_out))
     = [].
Proof. split; reflexivity. Qed.

Example refused_option_stops_the_attempt :
  HTTPConnection.connect Demo.env Demo.custom
  = (Raise (SocketError "Protocol not available"), Demo.custom,
     [Ev_create_connection ("example.com", 80) PyNone [] (Return 3);
      Ev_setsockopt 3 (1, 9, 1) (Return tt);
      Ev_setsockopt 3 (6, -1, 0)
        (Raise (SocketError "Protocol not available"))]).
Proof. reflexivity. Qed.

(** * The further properties at work *)

Lemma dial_error_propagates_witness :
  connect Demo.env Verified Demo.down
  = (Raise (SocketError "Connection refused"), Demo.down,
     [Ev_create_connection ("down.example", 443) (PyInt 3) []
        (Raise (SocketError "Connection refused"))]).
Proof.
  apply (dial_error_propagates Demo.env Verified Demo.down); reflexivity.
Defined.

Lemma refused_option_aborts_witness :
  connect Demo.env Plain Demo.custom
  = (Raise (SocketError "Protocol not available"), Demo.custom,
     dialled Demo.custom (Return 3)
     :: calls_of (HTTPConnection._set_options_on Demo.env 3 Demo.custom)).
Proof.
  apply (refused_option_aborts Demo.env Plain Demo.custom 3); reflexivity.
Defined.

Lemma without_tunnel_host_witness :
  let self := set_tunnel EmptyString None Demo.direct in
  let x := connect Demo.env Verified self in
  filter is_tunnel (calls_of x) = []
  /\ auto_open (self_of x) = auto_open self
  /\ host (self_of x) = host self
  /\ port (self_of x) = port self.
Proof.
  apply (without_tunnel_host Demo.env Verified
           (set_tunnel EmptyString None Demo.direct)).
  reflexivity.
Defined.


Lemma cert_none_returns_iff_handshake_witness :
  let bare :=
    HTTPSConnection.__init__ Demo.env "example.com" None None None (PyInt 3)
      None None in
  let x := VerifiedHTTPSConnection.connect Demo.env bare in
  result_of x = Return tt <-> exists t, tls_socket (calls_of x) = Some t.
Proof.
  apply (cert_none_returns_iff_handshake Demo.env
           (HTTPSConnection.__init__ Demo.env "example.com" None None None
              (PyInt 3) None None)).
  reflexivity.
Defined.

Lemma sock_after_connect_witness :
  exists conn,
    dial Demo.env Demo.via_proxy = Return conn
    /\ exists t k c reqs ca hn ver,
         In (Ev_ssl_wrap_socket conn k c reqs ca hn ver (Return t))
            (calls_of (connect Demo.env Verified Demo.via_proxy))
         /\ sock (self_of (connect Demo.env Verified Demo.via_proxy))
            = Some (TLSSock t).
Proof.
  apply (sock_after_connect Demo.env Verified Demo.via_proxy). reflexivity.
Defined.

Lemma failed_wrap_leaves_sock_witness :
  sock (self_of (UnverifiedHTTPSConnection.connect Demo.no_tls Demo.direct))
  = Some (PlainSock 3)
  /\ sock (self_of (VerifiedHTTPSConnection.connect Demo.no_tls Demo.direct))
     = None
  /\ sock (self_of (VerifiedHTTPSConnection.connect Demo.no_tls Demo.via_proxy))
     = Some (PlainSock 3).
Proof.
  split; [|split].
  - destruct (failed_wrap_leaves_sock Demo.no_tls Demo.direct) as [H _].
    apply (H 3 None None CERT_NONE None (SSLError "handshake failure")).
    cbv. do 2 right. left. reflexivity.
  - destruct (failed_wrap_leaves_sock Demo.no_tls Demo.direct) as [_ H].
    apply (H 3 None None CERT_REQUIRED
             (Some "/etc/ssl/certs/ca-certificates.crt") (Some "example.com")
             2 (SSLError "handshake failure")).
    cbv. do 2 right. left. reflexivity.
  - destruct (failed_wrap_leaves_sock Demo.no_tls Demo.via_proxy) as [_ H].
    apply (H 3 None None CERT_REQUIRED
             (Some "/etc/ssl/certs/ca-certificates.crt") (Some "example.com")
             2 (SSLError "handshake failure")).
    cbv. do 3 right. left. reflexivity.
Defined.

Lemma unresolved_setting_raises_after_dial_witness :
  let self := Demo.with_cert_reqs (PyStr "bogus") Demo.direct in
  VerifiedHTTPSConnection.connect Demo.env self
  = (Raise (AttributeError "bogus"), self,
     calls_of (HTTPConnection._new_conn Demo.env self)).
Proof.
  apply (unresolved_setting_raises_after_dial Demo.env
           (Demo.with_cert_reqs (PyStr "bogus") Demo.direct) 3);
    [reflexivity | left; reflexivity].
Defined.

Lemma calls_of_verified_connect_witness :
  exists conn reqs ver t,
    dial Demo.env Demo.via_proxy = Return conn
    /\ resolve_cert_reqs Demo.env (cert_reqs Demo.via_proxy) = Return reqs
    /\ resolve_ssl_version Demo.env (ssl_version Demo.via_proxy) = Return ver
    /\ calls_of (VerifiedHTTPSConnection.connect Demo.env Demo.via_proxy)
       = calls_of (HTTPConnection._new_conn Demo.env Demo.via_proxy)
         ++ tunnel_calls Demo.env Demo.via_proxy conn
         ++ Ev_ssl_wrap_socket conn (key_file Demo.via_proxy)
              (cert_file Demo.via_proxy) reqs (ca_certs Demo.via_proxy)
              (effective_hostname Demo.via_proxy) ver (Return t)
            :: checks
                 (calls_of
                    (VerifiedHTTPSConnection.connect Demo.env Demo.via_proxy)).
Proof.
  apply (calls_of_verified_connect Demo.env Demo.via_proxy). reflexivity.
Defined.

Lemma calls_of_unverified_connect_witness :
  (exists conn,
      dial Demo.env Demo.plain_via_proxy = Return conn
      /\ calls_of (HTTPConnection.connect Demo.env Demo.plain_via_proxy)
         = calls_of (HTTPConnection._new_conn Demo.env Demo.plain_via_proxy)
           ++ tunnel_calls Demo.env Demo.plain_via_proxy conn)
  /\ (exists conn t,
        dial Demo.env Demo.direct = Return conn
        /\ calls_of (UnverifiedHTTPSConnection.connect Demo.env Demo.direct)
           = calls_of (HTTPConnection._new_conn Demo.env Demo.direct)
             ++ tunnel_calls Demo.env Demo.direct conn
             ++ [Ev_wrap_socket conn (key_file Demo.direct)
                   (cert_file Demo.direct) CERT_NONE None (Return t)]).
Proof.
  split.
  - destruct (calls_of_unverified_connect Demo.env Demo.plain_via_proxy)
      as [H _].
    apply H. reflexivity.
  - destruct (calls_of_unverified_connect Demo.env Demo.direct) as [_ H].
    apply H. reflexivity.
Defined.

Lemma set_cert_reaches_the_wrap_witness :
  @None string = None
  /\ @None string = None
  /\ Some "ca.pem" = Some "ca.pem"
  /\ resolve_cert_reqs Demo.env (PyStr "CERT_REQUIRED") = Return CERT_REQUIRED.
Proof.
  destruct (set_cert_reaches_the_wrap Demo.env Demo.with_client_key None None
              (PyStr "CERT_REQUIRED") (Some "ca.pem") PyNone PyNone)
    as [_ H].
  apply (H 3 None None CERT_REQUIRED (Some "ca.pem") (Some "example.com") 2
           (Return 103)).
  cbv. do 2 right. left. reflexivity.
Defined.

Lemma fresh_plain_connect_witness :
  let fresh :=
    HTTPConnection.__init__ Demo.env "example.com" None (PyInt 3) None in
  HTTPConnection.connect Demo.env (fresh None)
  = (Return tt, set_sock (Some (PlainSock 3)) (fresh None),
     [Ev_create_connection ("example.com", 80) (PyInt 3) [] (Return 3);
      Ev_setsockopt 3 (IPPROTO_TCP, TCP_NODELAY, 1) (Return tt)]).
Proof.
  destruct (fresh_plain_connect Demo.env "example.com" None (PyInt 3) None 3)
    as [H _]; [reflexivity|].
  apply H. reflexivity.
Defined.

Lemma fresh_https_connect_witness :
  Some "client.key" = Some "client.key"
  /\ Some "client.crt" = Some "client.crt"
  /\ CERT_NONE = CERT_NONE
  /\ @None string = None.
Proof.
  destruct (fresh_https_connect Demo.env "example.com" None
              (Some "client.key") (Some "client.crt") (PyInt 3) None None)
    as [_ H].
  apply (H 3 (Some "client.key") (Some "client.crt") CERT_NONE None
           (Return 103)).
  cbv. do 2 right. left. reflexivity.
Defined.
